(** * ESP32 eBike tuning chip: supervisory firmware, CAN handler, sensor emulator

    A shallow embedding of [firmware/src/main.cpp] and of the data declared in
    [modules/CANBusHandler.h] and [modules/SensorEmulator.h].

    The task bodies and the supervisory switch of [main.cpp] are translated
    statement by statement into a small state-and-restart monad.  The member
    functions of [CANBusHandler] and [SensorEmulator] are only declared in the
    headers; where a property needs one of their bodies, the body is given by a
    definition marked "Modelled from the spec". *)

From Stdlib Require Import ZArith List Bool Lia String.
From Stdlib Require Import Floats.SpecFloat.
Import ListNotations.
Local Open Scope Z_scope.

(** ** Unsigned 32-bit arithmetic ([uint32_t]) *)

Module U32.

Definition modulus : Z := 2 ^ 32.

Definition wrap (z : Z) : Z := z mod modulus.

Definition add (a b : Z) : Z := wrap (a + b).

Definition sub (a b : Z) : Z := wrap (a - b).

Definition incr (a : Z) : Z := add a 1.

Definition inRange (z : Z) : Prop := 0 <= z < modulus.

End U32.

(** ** CAN bus handler ([modules/CANBusHandler.h]) *)

Module CANBus.

(** Bosch CAN message IDs. *)
Definition BOSCH_SPEED_MSG_ID : Z := 0x181.
Definition BOSCH_MOTOR_MSG_ID : Z := 0x182.
Definition BOSCH_BATTERY_MSG_ID : Z := 0x183.
Definition BOSCH_DISPLAY_MSG_ID : Z := 0x184.
Definition BOSCH_DIAGNOSTIC_MSG_ID : Z := 0x185.

(** [CANBusConfig]. *)
Record CANBusConfig := mkCANBusConfig {
  canTxPin : Z;
  canRxPin : Z;
  baudRate : Z;
  boschGeneration : Z;
  enableDiagnostics : bool
}.

(** [CANMessage]: [data] holds the [msg_length] payload bytes (at most 8). *)
Record CANMessage := mkCANMessage {
  msg_id : Z;
  msg_length : Z;
  msg_data : list Z;
  msg_timestamp : Z
}.

Inductive BoschGeneration :=
| BOSCH_GEN1 | BOSCH_GEN2 | BOSCH_GEN3 | BOSCH_GEN4 | BOSCH_GEN5_SMART.

(** The enumerators carry the values 1 to 5; the configuration stores an
    [int]. *)
Definition generationOfInt (g : Z) : option BoschGeneration :=
  if g =? 1 then Some BOSCH_GEN1
  else if g =? 2 then Some BOSCH_GEN2
  else if g =? 3 then Some BOSCH_GEN3
  else if g =? 4 then Some BOSCH_GEN4
  else if g =? 5 then Some BOSCH_GEN5_SMART
  else None.

(** [BoschSystemStatus]. *)
Record BoschSystemStatus := mkStatus {
  isConnected : bool;
  currentSpeed : Z;
  motorPower : Z;
  batteryLevel : Z;
  assistLevel : Z;
  lastMessageTime : Z;
  errorCode : Z
}.

Definition markReceived (now : Z) (s : BoschSystemStatus) : BoschSystemStatus :=
  {| isConnected := true;
     currentSpeed := currentSpeed s;
     motorPower := motorPower s;
     batteryLevel := batteryLevel s;
     assistLevel := assistLevel s;
     lastMessageTime := now;
     errorCode := errorCode s |}.

Definition markDisconnected (s : BoschSystemStatus) : BoschSystemStatus :=
  {| isConnected := false;
     currentSpeed := currentSpeed s;
     motorPower := motorPower s;
     batteryLevel := batteryLevel s;
     assistLevel := assistLevel s;
     lastMessageTime := lastMessageTime s;
     errorCode := errorCode s |}.

(** The five message kinds, one per message id. *)
Inductive MessageKind := Speed | Motor | Battery | Display | Diagnostic.

Definition classify (id : Z) : option MessageKind :=
  if id =? BOSCH_SPEED_MSG_ID then Some Speed
  else if id =? BOSCH_MOTOR_MSG_ID then Some Motor
  else if id =? BOSCH_BATTERY_MSG_ID then Some Battery
  else if id =? BOSCH_DISPLAY_MSG_ID then Some Display
  else if id =? BOSCH_DIAGNOSTIC_MSG_ID then Some Diagnostic
  else None.

(** Flipping bit [j] of byte [i] of a frame's payload. *)
Fixpoint flipAt (i : nat) (j : Z) (bytes : list Z) : list Z :=
  match bytes, i with
  | [], _ => []
  | b :: rest, O => Z.lxor b (Z.shiftl 1 j) :: rest
  | b :: rest, S i' => b :: flipAt i' j rest
  end.

Definition flipPayloadBit (i : nat) (j : Z) (m : CANMessage) : CANMessage :=
  {| msg_id := msg_id m;
     msg_length := msg_length m;
     msg_data := flipAt i j (msg_data m);
     msg_timestamp := msg_timestamp m |}.

(** The generation-specific parts of the handler.  The header declares
    [validateMessage], [calculateChecksum], the [parse*Message] functions and
    the five [handleGen*Message] functions without bodies, and the field
    layouts and checksum rules are not part of the repository; they are the
    operations of this interface. *)
Class Codec := {
  kindLength : BoschGeneration -> MessageKind -> Z;
  validateMessage : BoschGeneration -> CANMessage -> bool;
  parseFields :
    BoschGeneration -> MessageKind -> CANMessage ->
    BoschSystemStatus -> BoschSystemStatus
}.

(** The handler object: the private members of [CANBusHandler] that the
    properties below read, together with the two quantities the spec
    attributes to it and the header does not name (the staleness window and
    the count of rejected frames). *)
Record Handler := mkHandler {
  config : CANBusConfig;
  systemStatus : BoschSystemStatus;
  heartbeatInterval : Z;
  lastHeartbeat : Z;
  connectionTimeout : Z;
  errorCount : Z
}.

Definition withStatus (s : BoschSystemStatus) (h : Handler) : Handler :=
  {| config := config h;
     systemStatus := s;
     heartbeatInterval := heartbeatInterval h;
     lastHeartbeat := lastHeartbeat h;
     connectionTimeout := connectionTimeout h;
     errorCount := errorCount h |}.

Definition withLastHeartbeat (t : Z) (h : Handler) : Handler :=
  {| config := config h;
     systemStatus := systemStatus h;
     heartbeatInterval := heartbeatInterval h;
     lastHeartbeat := t;
     connectionTimeout := connectionTimeout h;
     errorCount := errorCount h |}.

Definition countError (h : Handler) : Handler :=
  {| config := config h;
     systemStatus := systemStatus h;
     heartbeatInterval := heartbeatInterval h;
     lastHeartbeat := lastHeartbeat h;
     connectionTimeout := connectionTimeout h;
     errorCount := errorCount h + 1 |}.

(** Elapsed milliseconds between two [uint32_t] clock readings. *)
Definition elapsed (now since : Z) : Z := U32.sub now since.

Section Decode.

Context {codec : Codec}.

(** Modelled from the spec: the decision taken by the absent bodies of
    [processMessages] and the [handleGen*Message] dispatch.  A frame is
    accepted when the configured generation is one of the five, its id
    names a message kind, its length is the one of that kind's layout, and
    its checksum validates. *)
Definition acceptable (h : Handler) (m : CANMessage) : option (BoschGeneration * MessageKind) :=
  match generationOfInt (boschGeneration (config h)) with
  | None => None
  | Some g =>
      match classify (msg_id m) with
      | None => None
      | Some k =>
          if (msg_length m =? kindLength g k) && validateMessage g m
          then Some (g, k) else None
      end
  end.

(** Modelled from the spec: the absent per-frame body of
    [processMessages].  An accepted frame has its fields applied to the
    status, refreshes the last-message time and sets the connected flag; any
    other frame is dropped and counted, the status staying as it is. *)
Definition processFrame (now : Z) (h : Handler) (m : CANMessage) : Handler :=
  match acceptable h m with
  | Some (g, k) => withStatus (markReceived now (parseFields g k m (systemStatus h))) h
  | None => countError h
  end.

(** Modelled from the spec: the absent body of [processMessages], decoding
    every pending frame in arrival order. *)
Definition processMessages (now : Z) (rx : list CANMessage) (h : Handler) : Handler :=
  fold_left (processFrame now) rx h.

End Decode.

(** Modelled from the spec: the staleness check of the absent handler body.
    The connected flag drops once the time since the last received frame
    exceeds the window. *)
Definition checkConnection (now : Z) (h : Handler) : Handler :=
  if connectionTimeout h <? elapsed now (lastMessageTime (systemStatus h))
  then withStatus (markDisconnected (systemStatus h)) h
  else h.

(** Modelled from the spec: whether the absent body of [sendHeartbeat]
    transmits a heartbeat frame at time [now]. *)
Definition heartbeatDue (now : Z) (h : Handler) : bool :=
  heartbeatInterval h <? elapsed now (lastHeartbeat h).

(** Modelled from the spec: the absent body of [sendHeartbeat], the periodic
    bookkeeping the spec calls [tick]: heartbeat transmission when due, and
    independently the staleness check. *)
Definition sendHeartbeat (now : Z) (h : Handler) : Handler :=
  checkConnection now
    (if heartbeatDue now h then withLastHeartbeat now h else h).

(** *** Runs of the handler

    What reaches the handler over time: a frame handed to the decoder at
    time [now], or the periodic bookkeeping at time [now]. *)
Inductive Event :=
| Received (now : Z) (m : CANMessage)
| Tick (now : Z).

Section Runs.

Context {codec : Codec}.

Definition react (h : Handler) (ev : Event) : Handler :=
  match ev with
  | Received now m => processFrame now h m
  | Tick now => sendHeartbeat now h
  end.

Definition run (evs : list Event) (h : Handler) : Handler :=
  fold_left react evs h.

(** The events of a run that carry no accepted frame. *)
Definition quiet (h : Handler) (ev : Event) : bool :=
  match ev with
  | Received _ m => match acceptable h m with Some _ => false | None => true end
  | Tick _ => true
  end.

(** The times of the ticks of a run. *)
Fixpoint tickTimes (evs : list Event) : list Z :=
  match evs with
  | [] => []
  | Received _ _ :: rest => tickTimes rest
  | Tick t :: rest => t :: tickTimes rest
  end.

(** A tick at time [t] falls within the window that opened at [t0]. *)
Definition withinWindow (h : Handler) (t0 t : Z) : bool :=
  elapsed t t0 <=? connectionTimeout h.

End Runs.

(** *** A concrete codec

    One instance of the interface, used to run the model on concrete frames:
    eight-byte frames whose last byte makes the exclusive-or of all bytes
    zero, and a 16-bit little-endian value in the first two bytes. *)
Definition xorAll (bytes : list Z) : Z := fold_right Z.lxor 0 bytes.

Definition xorValidate (_ : BoschGeneration) (m : CANMessage) : bool :=
  xorAll (msg_data m) =? 0.

Definition word16 (bytes : list Z) : Z :=
  nth 0 bytes 0 + 256 * nth 1 bytes 0.

Definition xorParse (_ : BoschGeneration) (k : MessageKind) (m : CANMessage)
    (s : BoschSystemStatus) : BoschSystemStatus :=
  let v := word16 (msg_data m) in
  {| isConnected := isConnected s;
     currentSpeed := match k with Speed => v | _ => currentSpeed s end;
     motorPower := match k with Motor => v mod 256 | _ => motorPower s end;
     batteryLevel := match k with Battery => v mod 256 | _ => batteryLevel s end;
     assistLevel := match k with Display => v mod 256 | _ => assistLevel s end;
     lastMessageTime := lastMessageTime s;
     errorCode := match k with Diagnostic => v | _ => errorCode s end |}.

#[export] Instance XorCodec : Codec :=
  {| kindLength := fun _ _ => 8;
     validateMessage := xorValidate;
     parseFields := xorParse |}.

(** Encoding for the concrete codec: the payload followed by its check
    byte. *)
Definition xorEncode (id : Z) (payload : list Z) (ts : Z) : CANMessage :=
  {| msg_id := id;
     msg_length := Z.of_nat (List.length payload) + 1;
     msg_data := payload ++ [xorAll payload];
     msg_timestamp := ts |}.

Definition sampleConfig : CANBusConfig :=
  {| canTxPin := 5; canRxPin := 4; baudRate := 500000;
     boschGeneration := 3; enableDiagnostics := false |}.

Definition sampleStatus : BoschSystemStatus :=
  {| isConnected := false; currentSpeed := 0; motorPower := 0;
     batteryLevel := 0; assistLevel := 0; lastMessageTime := 0;
     errorCode := 0 |}.

Definition sampleHandler : Handler :=
  {| config := sampleConfig; systemStatus := sampleStatus;
     heartbeatInterval := 100; lastHeartbeat := 0;
     connectionTimeout := 1000; errorCount := 0 |}.

(** A speed frame reporting 2500 (0x09C4), seven payload bytes and the check
    byte. *)
Definition sampleSpeedFrame : CANMessage :=
  xorEncode BOSCH_SPEED_MSG_ID [0xC4; 0x09; 0; 0; 0; 0; 0] 0.

End CANBus.

(** ** Sensor emulator ([modules/SensorEmulator.h]) *)

Module Emulator.

Definition MAX_SPEED_KMH : Z := 50.
Definition MIN_SPEED_KMH : Z := 0.
Definition SIGNAL_BUFFER_SIZE : Z := 128.
Definition FILTER_WINDOW_SIZE : Z := 8.

Inductive OperatingMode :=
| MODE_DISABLED | MODE_ECO | MODE_SPORT | MODE_UNLIMITED | MODE_STEALTH.

Inductive PerformanceMode :=
| PERFORMANCE_NORMAL | PERFORMANCE_REDUCED | PERFORMANCE_MAXIMUM.

(** The counters and timestamp of [SignalStats]; its [float] members
    ([averageFrequency], [currentSpeed], [maxSpeed]) and the quality score
    play no part below and are left out. *)
Record SignalStats := mkStats {
  totalPulses : Z;
  validPulses : Z;
  droppedPulses : Z;
  lastPulseTime : Z
}.

(** The private members of [SensorEmulator] that the properties below read.
    [captureTime] is the timestamp the interrupt handler records;
    [minInterval] and [maxInterval] are the plausibility bounds of the
    capture validation; [signalTimeout] is [params.signalTimeout]. *)
Record SensorEmulator := mkEmulator {
  stats : SignalStats;
  currentMode : OperatingMode;
  performanceMode : PerformanceMode;
  lastInputPulse : Z;
  pulseInterval : Z;
  tuningActive : bool;
  stealthActive : bool;
  signalValid : bool;
  newPulseReceived : bool;
  captureTime : Z;
  signalTimeout : Z;
  minInterval : Z;
  maxInterval : Z
}.

(** Modelled from the spec: the absent body of [disableTuning].  Tuning is
    switched off; the selected operating mode stays as it is. *)
Definition disableTuning (e : SensorEmulator) : SensorEmulator :=
  {| stats := stats e; currentMode := currentMode e;
     performanceMode := performanceMode e;
     lastInputPulse := lastInputPulse e; pulseInterval := pulseInterval e;
     tuningActive := false;
     stealthActive := stealthActive e; signalValid := signalValid e;
     newPulseReceived := newPulseReceived e; captureTime := captureTime e;
     signalTimeout := signalTimeout e;
     minInterval := minInterval e; maxInterval := maxInterval e |}.

(** Modelled from the spec: the absent body of [setPerformanceMode]. *)
Definition setPerformanceMode (p : PerformanceMode) (e : SensorEmulator) : SensorEmulator :=
  {| stats := stats e; currentMode := currentMode e;
     performanceMode := p;
     lastInputPulse := lastInputPulse e; pulseInterval := pulseInterval e;
     tuningActive := tuningActive e;
     stealthActive := stealthActive e; signalValid := signalValid e;
     newPulseReceived := newPulseReceived e; captureTime := captureTime e;
     signalTimeout := signalTimeout e;
     minInterval := minInterval e; maxInterval := maxInterval e |}.


Definition clearPulseFlag (e : SensorEmulator) : SensorEmulator :=
  {| stats := stats e; currentMode := currentMode e;
     performanceMode := performanceMode e;
     lastInputPulse := lastInputPulse e; pulseInterval := pulseInterval e;
     tuningActive := tuningActive e;
     stealthActive := stealthActive e; signalValid := signalValid e;
     newPulseReceived := false; captureTime := captureTime e;
     signalTimeout := signalTimeout e;
     minInterval := minInterval e; maxInterval := maxInterval e |}.

Definition markStale (e : SensorEmulator) : SensorEmulator :=
  {| stats := stats e; currentMode := currentMode e;
     performanceMode := performanceMode e;
     lastInputPulse := lastInputPulse e; pulseInterval := pulseInterval e;
     tuningActive := tuningActive e;
     stealthActive := stealthActive e; signalValid := false;
     newPulseReceived := newPulseReceived e; captureTime := captureTime e;
     signalTimeout := signalTimeout e;
     minInterval := minInterval e; maxInterval := maxInterval e |}.

(** Modelled from the spec: the capture validation of the absent
    [validateSignal]: a non-zero interval within the plausibility bounds. *)
Definition validInterval (e : SensorEmulator) (interval : Z) : bool :=
  negb (interval =? 0) && (minInterval e <=? interval) && (interval <=? maxInterval e).

(** Modelled from the spec: the capture step of the absent
    [processInputPulse], the spec's [onCapture(timestamp)].  The interval to
    the previous capture is taken in [uint32_t] arithmetic, so a timestamp
    older than the previous one gives a very long interval.  Every capture is
    counted; it is counted valid when the interval passes validation and
    dropped otherwise. *)
Definition onCapture (ts : Z) (e : SensorEmulator) : SensorEmulator :=
  let interval := U32.sub ts (lastInputPulse e) in
  let ok := validInterval e interval in
  let st := stats e in
  {| stats :=
       {| totalPulses := U32.incr (totalPulses st);
          validPulses := if ok then U32.incr (validPulses st) else validPulses st;
          droppedPulses := if ok then droppedPulses st else U32.incr (droppedPulses st);
          lastPulseTime := if ok then U32.wrap ts else lastPulseTime st |};
     currentMode := currentMode e;
     performanceMode := performanceMode e;
     lastInputPulse := U32.wrap ts;
     pulseInterval := if ok then interval else pulseInterval e;
     tuningActive := tuningActive e;
     stealthActive := stealthActive e;
     signalValid := if ok then true else signalValid e;
     newPulseReceived := newPulseReceived e; captureTime := captureTime e;
     signalTimeout := signalTimeout e;
     minInterval := minInterval e; maxInterval := maxInterval e |}.

(** Modelled from the spec: the absent body of [processInputPulse] proper:
    the capture step applied to the timestamp the interrupt handler
    recorded. *)
Definition processInputPulse (e : SensorEmulator) : SensorEmulator :=
  onCapture (captureTime e) e.

(** Modelled from the spec: the signal-validity part of the periodic [tick]:
    the signal goes stale once the time since the last capture exceeds the
    timeout. *)
Definition checkSignalTimeout (now : Z) (e : SensorEmulator) : SensorEmulator :=
  if signalTimeout e <? U32.sub now (lastInputPulse e) then markStale e else e.

(** Modelled from the spec: the capture hand-off at the head of the absent
    body of [processSpeedSignal].  The task tests the flag, lowers it and
    processes the recorded edge; then it runs the staleness check. *)
Definition processSpeedSignal (now : Z) (e : SensorEmulator) : SensorEmulator :=
  checkSignalTimeout now
    (if newPulseReceived e then processInputPulse (clearPulseFlag e) else e).

(** The C expression [validPulses + droppedPulses == totalPulses] on the
    [uint32_t] counters. *)
Definition countersBalanced (st : SignalStats) : Prop :=
  U32.add (validPulses st) (droppedPulses st) = totalPulses st.

(** The events the emulator reacts to: a capture with its timestamp, and a
    periodic tick. *)
Inductive Event :=
| Capture (ts : Z)
| Tick (now : Z).

Definition react (e : SensorEmulator) (ev : Event) : SensorEmulator :=
  match ev with
  | Capture ts => onCapture ts e
  | Tick now => checkSignalTimeout now e
  end.

Definition run (evs : list Event) (e : SensorEmulator) : SensorEmulator :=
  fold_left react evs e.









(** *** Mode transforms on speeds ([float]) *)

Definition float := spec_float.

Definition isNaN (x : float) : bool :=
  match x with S754_nan => true | _ => false end.

(** Modelled from the spec: the absent body of [processEcoMode].  The target
    speed is clamped to the Eco ceiling. *)
Definition processEcoMode (ceiling inputSpeed : float) : float :=
  if SFltb ceiling inputSpeed then ceiling else inputSpeed.

(** Modelled from the spec: the absent body of [processSportMode], the same
    clamp with the higher Sport ceiling. *)
Definition processSportMode (ceiling inputSpeed : float) : float :=
  if SFltb ceiling inputSpeed then ceiling else inputSpeed.

(** Modelled from the spec: the absent body of [processUnlimitedMode]. *)
Definition processUnlimitedMode (inputSpeed : float) : float := inputSpeed.

(** Modelled from the spec: the absent body of [processStealthMode]: a speed
    over the threshold is reported as the slightly lower [reported] speed, a
    speed below it passes through. *)
Definition processStealthMode (threshold reported inputSpeed : float) : float :=
  if SFltb threshold inputSpeed then reported else inputSpeed.

Record ModeLimits := mkLimits {
  ecoCeiling : float;
  sportCeiling : float;
  stealthThreshold : float;
  stealthReported : float
}.

(** Modelled from the spec: the absent body of [applyModeProcessing], the
    dispatch on the operating mode. *)
Definition applyModeProcessing (lim : ModeLimits) (mode : OperatingMode) (inputSpeed : float) : float :=
  match mode with
  | MODE_DISABLED => inputSpeed
  | MODE_ECO => processEcoMode (ecoCeiling lim) inputSpeed
  | MODE_SPORT => processSportMode (sportCeiling lim) inputSpeed
  | MODE_UNLIMITED => processUnlimitedMode inputSpeed
  | MODE_STEALTH => processStealthMode (stealthThreshold lim) (stealthReported lim) inputSpeed
  end.

(** *** Counting captures

    The captures of a run that pass validation, counted from the timestamps
    alone: [last] is the timestamp of the previous capture. *)
Fixpoint passed (lo hi last : Z) (evs : list Event) : nat :=
  match evs with
  | [] => O
  | Tick _ :: rest => passed lo hi last rest
  | Capture ts :: rest =>
      let interval := U32.sub ts last in
      let ok := negb (interval =? 0) && (lo <=? interval) && (interval <=? hi) in
      ((if ok then 1 else 0) + passed lo hi (U32.wrap ts) rest)%nat
  end.

Fixpoint captures (evs : list Event) : nat :=
  match evs with
  | [] => O
  | Tick _ :: rest => captures rest
  | Capture _ :: rest => S (captures rest)
  end.

Definition statsInRange (st : SignalStats) : Prop :=
  U32.inRange (totalPulses st) /\ U32.inRange (validPulses st) /\
  U32.inRange (droppedPulses st).

Definition sampleStats : SignalStats :=
  {| totalPulses := 0; validPulses := 0; droppedPulses := 0; lastPulseTime := 0 |}.

Definition sampleEmulator : SensorEmulator :=
  {| stats := sampleStats; currentMode := MODE_ECO;
     performanceMode := PERFORMANCE_NORMAL;
     lastInputPulse := 0; pulseInterval := 0;
     tuningActive := true; stealthActive := false; signalValid := false;
     newPulseReceived := false; captureTime := 0;
     signalTimeout := 2000; minInterval := 5; maxInterval := 1000 |}.

(** 25.0 and 20.0 and 40.0 as [float] values (mantissa, exponent). *)
Definition f25 : float := S754_finite false 13107200 (-19).
Definition f20 : float := S754_finite false 10485760 (-19).
Definition f40 : float := S754_finite false 10485760 (-18).

End Emulator.

(** ** The application ([main.cpp]) *)

Module Main.

Import CANBus Emulator.

(** [SystemState]. *)
Inductive SystemState :=
| SYSTEM_INIT
| SYSTEM_NORMAL
| SYSTEM_TUNING_ACTIVE
| SYSTEM_STEALTH_MODE
| SYSTEM_ERROR
| SYSTEM_SHUTDOWN.

Definition SystemState_eqb (a b : SystemState) : bool :=
  match a, b with
  | SYSTEM_INIT, SYSTEM_INIT
  | SYSTEM_NORMAL, SYSTEM_NORMAL
  | SYSTEM_TUNING_ACTIVE, SYSTEM_TUNING_ACTIVE
  | SYSTEM_STEALTH_MODE, SYSTEM_STEALTH_MODE
  | SYSTEM_ERROR, SYSTEM_ERROR
  | SYSTEM_SHUTDOWN, SYSTEM_SHUTDOWN => true
  | _, _ => false
  end.

(** The result of [safetyMonitor.checkSystemHealth()], as [safetyTask] reads
    it. *)
Record SafetyStatus := mkSafetyStatus {
  criticalError : bool;
  temperatureWarning : bool
}.

(** What one cycle reads from outside the three modelled objects: the
    millisecond clock, the frames waiting at the transport, and the answers
    of the safety monitor and of the configuration manager. *)
Record Env := mkEnv {
  now : Z;
  rx : list CANMessage;
  health : SafetyStatus;
  canRecover : bool;
  isTuningEnabled : bool;
  isStealthModeEnabled : bool
}.

(** The calls a cycle makes on the modules, the serial port and the
    scheduler, in program order. *)
Inductive Call :=
| CanProcessMessages
| CanSendHeartbeat
| CanSendShutdownMessage
| EmuProcessSpeedSignal
| EmuStealthMode
| EmuDisableTuning
| EmuSetPerformanceMode (p : PerformanceMode)
| SerialPrintln (s : string)
| TaskDelay (ms : Z)
| Delay (ms : Z)
| EspRestart.

Definition Call_eqb (a b : Call) : bool :=
  match a, b with
  | CanProcessMessages, CanProcessMessages
  | CanSendHeartbeat, CanSendHeartbeat
  | CanSendShutdownMessage, CanSendShutdownMessage
  | EmuProcessSpeedSignal, EmuProcessSpeedSignal
  | EmuStealthMode, EmuStealthMode
  | EmuDisableTuning, EmuDisableTuning
  | EspRestart, EspRestart => true
  | EmuSetPerformanceMode p, EmuSetPerformanceMode q =>
      match p, q with
      | PERFORMANCE_NORMAL, PERFORMANCE_NORMAL
      | PERFORMANCE_REDUCED, PERFORMANCE_REDUCED
      | PERFORMANCE_MAXIMUM, PERFORMANCE_MAXIMUM => true
      | _, _ => false
      end
  | SerialPrintln s, SerialPrintln t => String.eqb s t
  | TaskDelay m, TaskDelay n => m =? n
  | Delay m, Delay n => m =? n
  | _, _ => false
  end.

Definition occurrences (c : Call) (l : list Call) : nat :=
  List.length (filter (Call_eqb c) l).

(** The global objects of [main.cpp]: [currentState], [canBusHandler],
    [sensorEmulator], and the calls made so far. *)
Record World := mkWorld {
  currentState : SystemState;
  canBusHandler : Handler;
  sensorEmulator : SensorEmulator;
  calls : list Call
}.

(** A cycle either returns, or ends in [ESP.restart()], which does not
    return. *)
Inductive Outcome (A : Type) :=
| Running (a : A) (w : World)
| Restarted (w : World).
Arguments Running {A} a w.
Arguments Restarted {A} w.

Definition Task (A : Type) : Type := World -> Outcome A.

Definition ret {A} (a : A) : Task A := fun w => Running a w.

Definition bind {A B} (c : Task A) (k : A -> Task B) : Task B :=
  fun w =>
    match c w with
    | Running a w' => k a w'
    | Restarted w' => Restarted w'
    end.

Declare Scope task_scope.
Delimit Scope task_scope with task.
Notation "x <- c ;; k" := (bind c (fun x => k))
  (at level 61, c at next level, right associativity) : task_scope.
Notation "c ;; k" := (bind c (fun _ => k))
  (at level 61, right associativity) : task_scope.
Local Open Scope task_scope.

Definition getCurrentState : Task SystemState :=
  fun w => Running (currentState w) w.

Definition setCurrentState (s : SystemState) : Task unit :=
  fun w => Running tt
    {| currentState := s; canBusHandler := canBusHandler w;
       sensorEmulator := sensorEmulator w; calls := calls w |}.

Definition record (c : Call) : Task unit :=
  fun w => Running tt
    {| currentState := currentState w; canBusHandler := canBusHandler w;
       sensorEmulator := sensorEmulator w; calls := calls w ++ [c] |}.

(** A member call on [canBusHandler], respectively [sensorEmulator]. *)
Definition onHandler (c : Call) (f : Handler -> Handler) : Task unit :=
  fun w => Running tt
    {| currentState := currentState w; canBusHandler := f (canBusHandler w);
       sensorEmulator := sensorEmulator w; calls := calls w ++ [c] |}.

Definition onEmulator (c : Call) (f : SensorEmulator -> SensorEmulator) : Task unit :=
  fun w => Running tt
    {| currentState := currentState w; canBusHandler := canBusHandler w;
       sensorEmulator := f (sensorEmulator w); calls := calls w ++ [c] |}.

Definition ESP_restart {A} : Task A :=
  fun w => Restarted
    {| currentState := currentState w; canBusHandler := canBusHandler w;
       sensorEmulator := sensorEmulator w; calls := calls w ++ [EspRestart] |}.

Definition when (b : bool) (c : Task unit) : Task unit :=
  if b then c else ret tt.

Definition Serial_println (s : string) : Task unit := record (SerialPrintln s).
Definition vTaskDelay (ms : Z) : Task unit := record (TaskDelay ms).
Definition delay (ms : Z) : Task unit := record (Delay ms).

Section Firmware.

Context {codec : Codec}.

(** The body of [SensorEmulator::stealthMode] is absent and the spec leaves
    the stealth rule open; it is a parameter. *)
Variable stealthModeBody : Z -> SensorEmulator -> SensorEmulator.

(** One iteration of the [while (true)] of [canBusTask]. *)
Definition canBusTask (env : Env) : Task unit :=
  s <- getCurrentState ;;
  when (SystemState_eqb s SYSTEM_NORMAL || SystemState_eqb s SYSTEM_TUNING_ACTIVE)
    (onHandler CanProcessMessages (processMessages (now env) (rx env)) ;;
     onHandler CanSendHeartbeat (sendHeartbeat (now env))) ;;
  vTaskDelay 10.

(** One iteration of the [while (true)] of [sensorTask]. *)
Definition sensorTask (env : Env) : Task unit :=
  s <- getCurrentState ;;
  (if SystemState_eqb s SYSTEM_TUNING_ACTIVE then
     onEmulator EmuProcessSpeedSignal (processSpeedSignal (now env))
   else if SystemState_eqb s SYSTEM_STEALTH_MODE then
     onEmulator EmuStealthMode (stealthModeBody (now env))
   else ret tt) ;;
  vTaskDelay 5.

(** One iteration of the [while (true)] of [safetyTask]. *)
Definition safetyTask (env : Env) : Task unit :=
  let status := health env in
  when (criticalError status)
    (Serial_println "CRITICAL ERROR: Switching to safe mode" ;;
     setCurrentState SYSTEM_ERROR ;;
     onEmulator EmuDisableTuning disableTuning) ;;
  when (temperatureWarning status)
    (Serial_println "Temperature warning - reducing performance" ;;
     onEmulator (EmuSetPerformanceMode PERFORMANCE_REDUCED)
       (setPerformanceMode PERFORMANCE_REDUCED)) ;;
  vTaskDelay 1000.

(** One call of [loop()]: the supervisory switch.  The shutdown frame
    leaves through the transport; the handler object is not read again
    before the restart. *)
Definition loop (env : Env) : Task unit :=
  s <- getCurrentState ;;
  match s with
  | SYSTEM_INIT =>
      setCurrentState SYSTEM_NORMAL
  | SYSTEM_NORMAL =>
      when (isTuningEnabled env)
        (setCurrentState SYSTEM_TUNING_ACTIVE ;;
         Serial_println "Tuning activated")
  | SYSTEM_TUNING_ACTIVE =>
      if isStealthModeEnabled env then
        setCurrentState SYSTEM_STEALTH_MODE ;;
        Serial_println "Stealth mode activated"
      else
        when (negb (isTuningEnabled env))
          (setCurrentState SYSTEM_NORMAL ;;
           Serial_println "Tuning deactivated")
  | SYSTEM_STEALTH_MODE =>
      when (negb (isStealthModeEnabled env))
        (setCurrentState SYSTEM_TUNING_ACTIVE ;;
         Serial_println "Stealth mode deactivated")
  | SYSTEM_ERROR =>
      when (canRecover env)
        (setCurrentState SYSTEM_NORMAL ;;
         Serial_println "System recovered from error state")
  | SYSTEM_SHUTDOWN =>
      Serial_println "System shutdown initiated" ;;
      onEmulator EmuDisableTuning disableTuning ;;
      onHandler CanSendShutdownMessage (fun h => h) ;;
      ESP_restart
  end ;;
  delay 100.

(** The tasks run interleaved; a step of the system is one cycle of one of
    them. *)
Inductive Step :=
| StepCanBus (env : Env)
| StepSensor (env : Env)
| StepSafety (env : Env)
| StepLoop (env : Env).

Definition step (st : Step) : Task unit :=
  match st with
  | StepCanBus env => canBusTask env
  | StepSensor env => sensorTask env
  | StepSafety env => safetyTask env
  | StepLoop env => loop env
  end.

(** A schedule of cycles, stopping at a restart. *)
Fixpoint runSteps (sts : list Step) : Task unit :=
  match sts with
  | [] => ret tt
  | st :: rest => step st ;; runSteps rest
  end.

End Firmware.

(** *** [loop()] in two steps

    The switch of [loop()] reads [currentState] and the case it enters tests
    its condition (a call on the configuration manager or the safety
    monitor); the assignment to [currentState], the message and the delay come
    after.  Another task can run between the two. *)
Inductive Decision :=
| Stay
| Assign (s : SystemState) (message : option string)
| ShutDown.

(** The read of the switch and the test of the case. *)
Definition loopDecide (env : Env) (s : SystemState) : Decision :=
  match s with
  | SYSTEM_INIT => Assign SYSTEM_NORMAL None
  | SYSTEM_NORMAL =>
      if isTuningEnabled env
      then Assign SYSTEM_TUNING_ACTIVE (Some "Tuning activated"%string)
      else Stay
  | SYSTEM_TUNING_ACTIVE =>
      if isStealthModeEnabled env
      then Assign SYSTEM_STEALTH_MODE (Some "Stealth mode activated"%string)
      else if negb (isTuningEnabled env)
      then Assign SYSTEM_NORMAL (Some "Tuning deactivated"%string)
      else Stay
  | SYSTEM_STEALTH_MODE =>
      if negb (isStealthModeEnabled env)
      then Assign SYSTEM_TUNING_ACTIVE (Some "Stealth mode deactivated"%string)
      else Stay
  | SYSTEM_ERROR =>
      if canRecover env
      then Assign SYSTEM_NORMAL (Some "System recovered from error state"%string)
      else Stay
  | SYSTEM_SHUTDOWN => ShutDown
  end.

(** What the entered case then does. *)
Definition loopCommit (d : Decision) : Task unit :=
  match d with
  | Stay => delay 100
  | Assign s None => setCurrentState s ;; delay 100
  | Assign s (Some message) =>
      setCurrentState s ;; Serial_println message ;; delay 100
  | ShutDown =>
      Serial_println "System shutdown initiated" ;;
      onEmulator EmuDisableTuning disableTuning ;;
      onHandler CanSendShutdownMessage (fun h => h) ;;
      ESP_restart
  end.

(** What the switch reads in the run where a safety cycle falls between its
    two steps: the tuning flag set, the stealth flag clear. *)
Definition racingEnv : Env :=
  {| now := 0; rx := [];
     health := {| criticalError := false; temperatureWarning := false |};
     canRecover := false; isTuningEnabled := true; isStealthModeEnabled := false |}.


(** *** Observing a cycle *)

Definition worldOf {A} (o : Outcome A) : World :=
  match o with
  | Running _ w => w
  | Restarted w => w
  end.

(** The system state a cycle leaves behind, or [None] when the device
    restarted. *)
Definition stateAfter {A} (o : Outcome A) : option SystemState :=
  match o with
  | Running _ w => Some (currentState w)
  | Restarted _ => None
  end.

(** The calls made by a cycle started in [w]. *)
Definition emitted {A} (t : Task A) (w : World) : list Call :=
  skipn (List.length (calls w)) (calls (worldOf (t w))).

(** The gate of the CAN task. *)
Definition canActive (s : SystemState) : bool :=
  match s with
  | SYSTEM_NORMAL | SYSTEM_TUNING_ACTIVE => true
  | _ => false
  end.

(** *** The transition rules as the spec lists them

    [listed env s s'] holds when one of the listed rules takes [s] to [s']
    under the flags of [env]. *)
Inductive listed (env : Env) : SystemState -> SystemState -> Prop :=
| NormalToTuning :
    isTuningEnabled env = true -> listed env SYSTEM_NORMAL SYSTEM_TUNING_ACTIVE
| TuningToStealth :
    isStealthModeEnabled env = true -> listed env SYSTEM_TUNING_ACTIVE SYSTEM_STEALTH_MODE
| TuningToNormal :
    isTuningEnabled env = false -> listed env SYSTEM_TUNING_ACTIVE SYSTEM_NORMAL
| StealthToTuning :
    isStealthModeEnabled env = false -> listed env SYSTEM_STEALTH_MODE SYSTEM_TUNING_ACTIVE
| ErrorToNormal :
    canRecover env = true -> listed env SYSTEM_ERROR SYSTEM_NORMAL.

(** The rules read as a function, with the order of the two rules that leave
    [TuningActive] made explicit (stealth first), [Init] going to [Normal],
    and [Shutdown] ending in a restart ([None]). *)
Definition specTransition (env : Env) (s : SystemState) : option SystemState :=
  match s with
  | SYSTEM_INIT => Some SYSTEM_NORMAL
  | SYSTEM_NORMAL =>
      Some (if isTuningEnabled env then SYSTEM_TUNING_ACTIVE else SYSTEM_NORMAL)
  | SYSTEM_TUNING_ACTIVE =>
      Some (if isStealthModeEnabled env then SYSTEM_STEALTH_MODE
            else if isTuningEnabled env then SYSTEM_TUNING_ACTIVE
            else SYSTEM_NORMAL)
  | SYSTEM_STEALTH_MODE =>
      Some (if isStealthModeEnabled env then SYSTEM_STEALTH_MODE else SYSTEM_TUNING_ACTIVE)
  | SYSTEM_ERROR =>
      Some (if canRecover env then SYSTEM_NORMAL else SYSTEM_ERROR)
  | SYSTEM_SHUTDOWN => None
  end.

Definition sampleWorld (s : SystemState) : World :=
  {| currentState := s; canBusHandler := sampleHandler;
     sensorEmulator := sampleEmulator; calls := [] |}.

Definition quietEnv : Env :=
  {| now := 0; rx := [];
     health := {| criticalError := false; temperatureWarning := false |};
     canRecover := false; isTuningEnabled := false; isStealthModeEnabled := false |}.

(** The stealth body used in concrete runs leaves the emulator as it is. *)
Definition idleStealth (_ : Z) (e : SensorEmulator) : SensorEmulator := e.

Definition criticalEnv : Env :=
  {| now := 0; rx := [];
     health := {| criticalError := true; temperatureWarning := false |};
     canRecover := false; isTuningEnabled := true; isStealthModeEnabled := false |}.

(** Tuning flag clear, stealth flag set. *)
Definition stealthOnlyEnv : Env :=
  {| now := 0; rx := [];
     health := {| criticalError := false; temperatureWarning := false |};
     canRecover := false; isTuningEnabled := false; isStealthModeEnabled := true |}.

(** Both flags set, at time [t], with the frames [frames] waiting. *)
Definition tunedEnv (t : Z) (frames : list CANMessage) : Env :=
  {| now := t; rx := frames;
     health := {| criticalError := false; temperatureWarning := false |};
     canRecover := false; isTuningEnabled := true; isStealthModeEnabled := true |}.

(** A frame is accepted at time 0; the supervisor moves through
    [TuningActive] into [StealthMode]; the CAN task then runs a cycle five
    seconds later. *)
Definition stealthSchedule : list Step :=
  [StepCanBus (tunedEnv 0 [sampleSpeedFrame]);
   StepLoop (tunedEnv 10 []);
   StepLoop (tunedEnv 110 []);
   StepCanBus (tunedEnv 5000 [])].

Definition corruptSpeedFrame : CANMessage := flipPayloadBit 0 3 sampleSpeedFrame.

End Main.

(** ** Schedules of cycles

    The state a cycle leaves and the calls it makes depend only on the state
    it finds and on what it reads from outside; the functions below read them
    off the task bodies, and are related to the bodies in the properties. *)

Module Schedule.

Import CANBus Emulator Main.

(** The states the tasks move between once [setup] has run. *)
Definition operational (s : SystemState) : bool :=
  match s with
  | SYSTEM_NORMAL | SYSTEM_TUNING_ACTIVE | SYSTEM_STEALTH_MODE | SYSTEM_ERROR => true
  | SYSTEM_INIT | SYSTEM_SHUTDOWN => false
  end.

(** The states with no processing path of the emulator. *)
Definition untuned (s : SystemState) : bool :=
  match s with
  | SYSTEM_INIT | SYSTEM_NORMAL | SYSTEM_ERROR => true
  | _ => false
  end.

Definition nextState (st : Step) (s : SystemState) : SystemState :=
  match st with
  | StepCanBus _ | StepSensor _ => s
  | StepSafety env => if criticalError (health env) then SYSTEM_ERROR else s
  | StepLoop env =>
      match specTransition env s with
      | Some s' => s'
      | None => s
      end
  end.

Definition loopCalls (env : Env) (s : SystemState) : list Call :=
  match s with
  | SYSTEM_INIT => [Delay 100]
  | SYSTEM_NORMAL =>
      if isTuningEnabled env
      then [SerialPrintln "Tuning activated"; Delay 100]
      else [Delay 100]
  | SYSTEM_TUNING_ACTIVE =>
      if isStealthModeEnabled env
      then [SerialPrintln "Stealth mode activated"; Delay 100]
      else if isTuningEnabled env then [Delay 100]
      else [SerialPrintln "Tuning deactivated"; Delay 100]
  | SYSTEM_STEALTH_MODE =>
      if isStealthModeEnabled env then [Delay 100]
      else [SerialPrintln "Stealth mode deactivated"; Delay 100]
  | SYSTEM_ERROR =>
      if canRecover env
      then [SerialPrintln "System recovered from error state"; Delay 100]
      else [Delay 100]
  | SYSTEM_SHUTDOWN =>
      [SerialPrintln "System shutdown initiated"; EmuDisableTuning;
       CanSendShutdownMessage; EspRestart]
  end.

Definition safetyCalls (status : SafetyStatus) : list Call :=
  (if criticalError status
   then [SerialPrintln "CRITICAL ERROR: Switching to safe mode"; EmuDisableTuning]
   else []) ++
  (if temperatureWarning status
   then [SerialPrintln "Temperature warning - reducing performance";
         EmuSetPerformanceMode PERFORMANCE_REDUCED]
   else []) ++
  [TaskDelay 1000].

Definition stepCalls (st : Step) (s : SystemState) : list Call :=
  match st with
  | StepCanBus _ =>
      if canActive s
      then [CanProcessMessages; CanSendHeartbeat; TaskDelay 10]
      else [TaskDelay 10]
  | StepSensor _ =>
      match s with
      | SYSTEM_TUNING_ACTIVE => [EmuProcessSpeedSignal; TaskDelay 5]
      | SYSTEM_STEALTH_MODE => [EmuStealthMode; TaskDelay 5]
      | _ => [TaskDelay 5]
      end
  | StepSafety env => safetyCalls (health env)
  | StepLoop env => loopCalls env s
  end.

Fixpoint finalState (sts : list Step) (s : SystemState) : SystemState :=
  match sts with
  | [] => s
  | st :: rest => finalState rest (nextState st s)
  end.

Fixpoint scheduleCalls (sts : list Step) (s : SystemState) : list Call :=
  match sts with
  | [] => []
  | st :: rest => stepCalls st s ++ scheduleCalls rest (nextState st s)
  end.

(** Conditions on the cycles of a schedule. *)

(** No safety cycle sees a critical error. *)
Definition calm (st : Step) : bool :=
  match st with
  | StepSafety env => negb (criticalError (health env))
  | _ => true
  end.


(** Every supervisory cycle reads the tuning flag clear. *)
Definition tuningOff (st : Step) : bool :=
  match st with
  | StepLoop env => negb (isTuningEnabled env)
  | _ => true
  end.

(** Every supervisory cycle reads the stealth flag set. *)
Definition stealthOn (st : Step) : bool :=
  match st with
  | StepLoop env => isStealthModeEnabled env
  | _ => true
  end.

Definition isSensorStep (st : Step) : bool :=
  match st with StepSensor _ => true | _ => false end.

Definition isLoopStep (st : Step) : bool :=
  match st with StepLoop _ => true | _ => false end.

Definition warns (st : Step) : bool :=
  match st with
  | StepSafety env => temperatureWarning (health env)
  | _ => false
  end.

Definition count (p : Step -> bool) (sts : list Step) : nat :=
  List.length (filter p sts).

(** Conditions on the calls of a schedule. *)
Definition notShutdownCall (c : Call) : bool :=
  negb (Call_eqb CanSendShutdownMessage c) && negb (Call_eqb EspRestart c).

Definition notDisable (c : Call) : bool := negb (Call_eqb EmuDisableTuning c).

Definition notProcessing (c : Call) : bool :=
  negb (Call_eqb EmuProcessSpeedSignal c) && negb (Call_eqb EmuStealthMode c).


Definition stealthOnly (c : Call) : bool :=
  negb (Call_eqb CanProcessMessages c) && negb (Call_eqb CanSendHeartbeat c) &&
  negb (Call_eqb EmuProcessSpeedSignal c).

Definition notStealthCall (c : Call) : bool := negb (Call_eqb EmuStealthMode c).

Definition isCanStep (st : Step) : bool :=
  match st with StepCanBus _ => true | _ => false end.

(** Environments and schedules for concrete runs. *)
Definition warnEnv : Env :=
  {| now := 0; rx := [];
     health := {| criticalError := false; temperatureWarning := true |};
     canRecover := false; isTuningEnabled := true; isStealthModeEnabled := false |}.

(** Recovery possible, both flags set. *)
Definition recoverEnv : Env :=
  {| now := 0; rx := [];
     health := {| criticalError := false; temperatureWarning := false |};
     canRecover := true; isTuningEnabled := true; isStealthModeEnabled := true |}.

(** All four tasks at work, with a temperature warning, a critical error and a
    recovery on the way. *)
Definition busySchedule : list Step :=
  [StepCanBus (tunedEnv 0 [sampleSpeedFrame]);
   StepLoop (tunedEnv 10 []);
   StepSensor (tunedEnv 15 []);
   StepSafety warnEnv;
   StepLoop (tunedEnv 110 []);
   StepSensor (tunedEnv 115 []);
   StepSafety criticalEnv;
   StepLoop recoverEnv;
   StepSafety warnEnv;
   StepCanBus (tunedEnv 300 [])].

(** The same without the critical error. *)
Definition calmSchedule : list Step :=
  [StepCanBus (tunedEnv 0 [sampleSpeedFrame]);
   StepLoop (tunedEnv 10 []);
   StepSensor (tunedEnv 15 []);
   StepSafety warnEnv;
   StepLoop (tunedEnv 110 []);
   StepSensor (tunedEnv 115 [])].


(** The tuning flag clear throughout, the stealth flag set. *)
Definition untunedSchedule : list Step :=
  [StepLoop stealthOnlyEnv;
   StepSensor stealthOnlyEnv;
   StepSafety criticalEnv;
   StepLoop stealthOnlyEnv;
   StepSensor stealthOnlyEnv].

(** The stealth flag set throughout, the tuning flag clear. *)
Definition stealthyRun : list Step :=
  [StepLoop stealthOnlyEnv;
   StepSensor stealthOnlyEnv;
   StepCanBus (tunedEnv 30 [sampleSpeedFrame]);
   StepSafety warnEnv;
   StepSensor stealthOnlyEnv].

(** A single supervisory cycle among the others. *)
Definition oneLoopSchedule : list Step :=
  [StepCanBus (tunedEnv 0 []);
   StepLoop (tunedEnv 10 []);
   StepSensor (tunedEnv 15 []);
   StepSafety warnEnv;
   StepSensor (tunedEnv 20 [])].

End Schedule.

(** ** Start-up ([initializeModules], [createTasks], [setup], [otaTask]) *)

Module Startup.

Import Main.

(** The answers of the five [begin] calls. *)
Record BootEnv := mkBootEnv {
  configBegin : bool;
  canBusBegin : bool;
  sensorBegin : bool;
  safetyBegin : bool;
  otaBegin : bool
}.

(** The calls made during start-up, in program order. *)
Inductive BootCall :=
| SerialBegin (baud : Z)
| Println (s : string)
| ConfigManagerBegin
| ConfigManagerLoadConfig
| CanBusHandlerBegin
| SensorEmulatorBegin
| SafetyMonitorBegin
| OtaUpdaterBegin
| CreateTask (name : string) (stackSize priority core : Z)
| OtaCheckForUpdates
| OtaDelay (ms : Z).

Definition BootCall_eqb (a b : BootCall) : bool :=
  match a, b with
  | SerialBegin x, SerialBegin y => x =? y
  | Println s, Println t => String.eqb s t
  | ConfigManagerBegin, ConfigManagerBegin
  | ConfigManagerLoadConfig, ConfigManagerLoadConfig
  | CanBusHandlerBegin, CanBusHandlerBegin
  | SensorEmulatorBegin, SensorEmulatorBegin
  | SafetyMonitorBegin, SafetyMonitorBegin
  | OtaUpdaterBegin, OtaUpdaterBegin
  | OtaCheckForUpdates, OtaCheckForUpdates => true
  | CreateTask n s p c, CreateTask n' s' p' c' =>
      String.eqb n n' && (s =? s') && (p =? p') && (c =? c')
  | OtaDelay x, OtaDelay y => x =? y
  | _, _ => false
  end.

Definition made (c : BootCall) (l : list BootCall) : bool :=
  existsb (BootCall_eqb c) l.

(** [initializeModules()]: each failed [begin] but the updater's prints an
    error and returns. *)
Definition initializeModules (env : BootEnv) : list BootCall :=
  Println "Initializing modules..." ::
  ConfigManagerBegin ::
  if negb (configBegin env) then
    [Println "ERROR: Failed to initialize ConfigManager"]
  else
    ConfigManagerLoadConfig ::
    CanBusHandlerBegin ::
    if negb (canBusBegin env) then
      [Println "ERROR: Failed to initialize CAN Bus"]
    else
      SensorEmulatorBegin ::
      if negb (sensorBegin env) then
        [Println "ERROR: Failed to initialize Sensor Emulator"]
      else
        SafetyMonitorBegin ::
        if negb (safetyBegin env) then
          [Println "ERROR: Failed to initialize Safety Monitor"]
        else
          OtaUpdaterBegin ::
          (if negb (otaBegin env)
           then [Println "WARNING: Failed to initialize OTA Updater"]
           else []) ++
          [Println "All modules initialized successfully"].




Local Open Scope task_scope.

(** The rest of [setup()]: the assignment to [currentState] and the two
    closing messages. *)
Definition setupFinish : Task unit :=
  setCurrentState SYSTEM_NORMAL ;;
  Serial_println "System initialization complete" ;;
  Serial_println "Entering main loop...".

(** One iteration of the [while (true)] of [otaTask]; [wifiConnected] is
    [WiFi.status() == WL_CONNECTED]. *)
Definition otaTask (wifiConnected : bool) : list BootCall :=
  (if wifiConnected then [OtaCheckForUpdates] else []) ++ [OtaDelay 30000].

(** Every [begin] succeeds; the CAN handler's fails. *)
Definition allOk : BootEnv :=
  {| configBegin := true; canBusBegin := true; sensorBegin := true;
     safetyBegin := true; otaBegin := true |}.

Definition canFails : BootEnv :=
  {| configBegin := true; canBusBegin := false; sensorBegin := true;
     safetyBegin := true; otaBegin := true |}.

End Startup.

(** * Properties *)

(** ** Arithmetic on [uint32_t] *)

Lemma u32_modulus_pos : 0 < U32.modulus.
Proof. reflexivity. Qed.

Lemma u32_wrap_range (z : Z) : U32.inRange (U32.wrap z).
Proof. unfold U32.inRange, U32.wrap. apply Z.mod_pos_bound, u32_modulus_pos. Qed.

Lemma u32_wrap_small (z : Z) : U32.inRange z -> U32.wrap z = z.
Proof. unfold U32.inRange, U32.wrap. intros H. now apply Z.mod_small. Qed.

Lemma u32_wrap_add_l (a b : Z) : U32.wrap (U32.wrap a + b) = U32.wrap (a + b).
Proof. unfold U32.wrap. now rewrite Zplus_mod_idemp_l. Qed.

Lemma u32_wrap_add_r (a b : Z) : U32.wrap (a + U32.wrap b) = U32.wrap (a + b).
Proof. unfold U32.wrap. now rewrite Zplus_mod_idemp_r. Qed.

(** ** The supervisory firmware *)

Section MainFacts.

Import CANBus Emulator Main.

Context {codec : Codec}.
Variable stealthModeBody : Z -> SensorEmulator -> SensorEmulator.

Lemma skipn_prefix {A} (l x : list A) : skipn (List.length l) (l ++ x) = x.
Proof. induction l as [|a l IH]; simpl; auto. Qed.

(** Unfolding one cycle down to the record it returns. *)
Ltac run_cycle :=
  unfold canBusTask, sensorTask, safetyTask, loop, when, Serial_println,
    vTaskDelay, delay, ESP_restart, onHandler, onEmulator, record,
    setCurrentState, getCurrentState, bind, ret;
  simpl.

(** What one CAN cycle does, by the state it finds. *)
Lemma canBusTask_run (env : Env) (w : World) :
  canBusTask env w =
  Running tt
    (if canActive (currentState w) then
       {| currentState := currentState w;
          canBusHandler :=
            sendHeartbeat (now env) (processMessages (now env) (rx env) (canBusHandler w));
          sensorEmulator := sensorEmulator w;
          calls := calls w ++ [CanProcessMessages; CanSendHeartbeat; TaskDelay 10] |}
     else
       {| currentState := currentState w;
          canBusHandler := canBusHandler w;
          sensorEmulator := sensorEmulator w;
          calls := calls w ++ [TaskDelay 10] |}).
Proof.
  destruct w as [s h e c]. destruct s; run_cycle; rewrite <- ?app_assoc; reflexivity.
Qed.

(** What one sensor cycle does, by the state it finds. *)
Lemma sensorTask_run (env : Env) (w : World) :
  sensorTask stealthModeBody env w =
  Running tt
    (match currentState w with
     | SYSTEM_TUNING_ACTIVE =>
         {| currentState := currentState w;
            canBusHandler := canBusHandler w;
            sensorEmulator := processSpeedSignal (now env) (sensorEmulator w);
            calls := calls w ++ [EmuProcessSpeedSignal; TaskDelay 5] |}
     | SYSTEM_STEALTH_MODE =>
         {| currentState := currentState w;
            canBusHandler := canBusHandler w;
            sensorEmulator := stealthModeBody (now env) (sensorEmulator w);
            calls := calls w ++ [EmuStealthMode; TaskDelay 5] |}
     | _ =>
         {| currentState := currentState w;
            canBusHandler := canBusHandler w;
            sensorEmulator := sensorEmulator w;
            calls := calls w ++ [TaskDelay 5] |}
     end).
Proof.
  destruct w as [s h e c]. destruct s; run_cycle; rewrite <- ?app_assoc; reflexivity.
Qed.

(** The safety cycle always returns, and leaves the handler alone. *)
Lemma safetyTask_runs (env : Env) (w : World) :
  exists w',
    safetyTask env w = Running tt w' /\
    currentState w' =
      (if criticalError (health env) then SYSTEM_ERROR else currentState w) /\
    canBusHandler w' = canBusHandler w /\
    tuningActive (sensorEmulator w') =
      (if criticalError (health env) then false else tuningActive (sensorEmulator w)) /\
    currentMode (sensorEmulator w') = currentMode (sensorEmulator w).
Proof.
  destruct w as [s h e c]. destruct env as [n r [ce tw] cr te se].
  destruct ce, tw; run_cycle; eexists; repeat split; reflexivity.
Qed.

(** The supervisory switch moves the state as [specTransition] says. *)
Lemma loop_state (env : Env) (w : World) :
  stateAfter (loop env w) = specTransition env (currentState w).
Proof.
  destruct w as [s h e c]. destruct env as [n r hl cr te se].
  destruct s, cr, te, se; reflexivity.
Qed.

(** Outside [Shutdown] the switch returns, and touches neither module. *)
Lemma loop_returns (env : Env) (w : World) :
  currentState w <> SYSTEM_SHUTDOWN ->
  exists w',
    loop env w = Running tt w' /\
    canBusHandler w' = canBusHandler w /\
    sensorEmulator w' = sensorEmulator w.
Proof.
  destruct w as [s h e c]. destruct env as [n r hl cr te se]. simpl. intros Hs.
  destruct s, cr, te, se; run_cycle; try (exfalso; apply Hs; reflexivity);
    eexists; repeat split; reflexivity.
Qed.

End MainFacts.

(** ** The concrete codec *)

Section XorCodecFacts.

Import CANBus.

Lemma xorAll_app (l1 l2 : list Z) :
  xorAll (l1 ++ l2) = Z.lxor (xorAll l1) (xorAll l2).
Proof.
  unfold xorAll. induction l1 as [|a l1 IH]; cbn [app fold_right].
  - now rewrite Z.lxor_0_l.
  - now rewrite IH, Z.lxor_assoc.
Qed.

Lemma xorEncode_validates (g : BoschGeneration) (id : Z) (payload : list Z) (ts : Z) :
  xorValidate g (xorEncode id payload ts) = true.
Proof.
  unfold xorValidate, xorEncode. cbn [msg_data]. apply Z.eqb_eq.
  rewrite xorAll_app. unfold xorAll at 2. cbn [fold_right].
  rewrite Z.lxor_0_r. apply Z.lxor_nilpotent.
Qed.

End XorCodecFacts.

(** ** Claims about the supervisory firmware *)

Section SupervisorClaims.

Import CANBus Emulator Main.

Context {codec : Codec}.
Variable stealthModeBody : Z -> SensorEmulator -> SensorEmulator.

Lemma canActive_spec (s : SystemState) :
  canActive s = true <-> s = SYSTEM_NORMAL \/ s = SYSTEM_TUNING_ACTIVE.
Proof.
  destruct s; simpl; split; intros H; auto; try discriminate H;
    destruct H as [H|H]; discriminate H.
Qed.

(** The rules [specTransition] applies are [Init -> Normal] and the listed
    ones. *)
Lemma specTransition_listed (env : Env) (s s' : SystemState) :
  specTransition env s = Some s' ->
  s' = s \/ (s = SYSTEM_INIT /\ s' = SYSTEM_NORMAL) \/ listed env s s'.
Proof.
  destruct env as [n r hl cr te se].
  destruct s; simpl; intros H; try discriminate H; injection H as <-.
  - right; left; auto.
  - destruct te eqn:E; [right; right; now constructor | now left].
  - destruct se eqn:E1; [right; right; now constructor|].
    destruct te eqn:E2; [now left | right; right; now constructor].
  - destruct se eqn:E; [now left | right; right; now constructor].
  - destruct cr eqn:E; [right; right; now constructor | now left].
Qed.

(** A listed rule whose condition holds is the one [specTransition] takes,
    the rule [TuningActive -> Normal] only when the stealth flag is off. *)
Lemma listed_specTransition (env : Env) (s s' : SystemState) :
  listed env s s' ->
  (s = SYSTEM_TUNING_ACTIVE -> s' = SYSTEM_NORMAL -> isStealthModeEnabled env = false) ->
  specTransition env s = Some s'.
Proof.
  intros H Hp. destruct H as [H|H|H|H|H]; simpl; rewrite ?H; try reflexivity.
  now rewrite (Hp eq_refl eq_refl).
Qed.

(** No cycle outside [Shutdown] calls [sendShutdownMessage]. *)
Lemma no_shutdown_frame_elsewhere (st : Step) (w : World) :
  currentState w <> SYSTEM_SHUTDOWN ->
  occurrences CanSendShutdownMessage (emitted (step stealthModeBody st) w) = O.
Proof.
  intros Hs. destruct st as [env|env|env|env]; simpl.
  - unfold emitted. rewrite canBusTask_run.
    destruct (canActive (currentState w)); simpl; rewrite skipn_prefix; reflexivity.
  - unfold emitted. rewrite sensorTask_run.
    destruct (currentState w); simpl; rewrite skipn_prefix; reflexivity.
  - destruct w as [s h e c]. destruct env as [n r [ce tw] cr te se].
    unfold emitted.
    destruct ce, tw;
      unfold safetyTask, when, Serial_println, vTaskDelay, onEmulator, record,
        setCurrentState, bind, ret; simpl;
      rewrite <- ?app_assoc; simpl; rewrite skipn_prefix; reflexivity.
  - destruct w as [s h e c]. destruct env as [n r hl cr te se]. simpl in Hs.
    unfold emitted.
    destruct s, cr, te, se; try (exfalso; apply Hs; reflexivity);
      unfold loop, when, Serial_println, delay, record, setCurrentState,
        getCurrentState, bind, ret; simpl;
      rewrite <- ?app_assoc; simpl; rewrite skipn_prefix; reflexivity.
Qed.

(** The two steps of the switch, run one after the other, are [loop]. *)
Lemma loop_split (env : Env) (w : World) :
  loop env w = loopCommit (loopDecide env (currentState w)) w.
Proof.
  destruct w as [s h e c]. destruct env as [n r hl cr te se].
  destruct s, cr, te, se; reflexivity.
Qed.

(** C1, where the code departs from it.  A safety cycle that sees
    [criticalError] writes [Error] and calls [disableTuning].  But the switch
    of [loop()] reads [currentState] and assigns it later: when it has read
    [Normal] with the tuning flag set and the safety cycle runs before the
    assignment, the assignment overwrites [Error] with [TuningActive], and the
    next sensor cycle calls [processSpeedSignal]. *)
Theorem critical_error_overwritten_by_loop (lenv senv tenv : Env) (w : World) :
  currentState w = SYSTEM_NORMAL ->
  isTuningEnabled lenv = true ->
  criticalError (health senv) = true ->
  exists w1 w2,
    safetyTask senv w = Running tt w1 /\
    currentState w1 = SYSTEM_ERROR /\
    In EmuDisableTuning (emitted (safetyTask senv) w) /\
    loopCommit (loopDecide lenv (currentState w)) w1 = Running tt w2 /\
    currentState w2 = SYSTEM_TUNING_ACTIVE /\
    emitted (sensorTask stealthModeBody tenv) w2 = [EmuProcessSpeedSignal; TaskDelay 5].
Proof.
  intros Hn Hte Hce.
  destruct (safetyTask_runs senv w) as (w1 & Hrun & Hst & _).
  rewrite Hce in Hst.
  assert (Hcommit : exists w2,
             loopCommit (loopDecide lenv (currentState w)) w1 = Running tt w2 /\
             currentState w2 = SYSTEM_TUNING_ACTIVE).
  { rewrite Hn. cbn [loopDecide]. rewrite Hte.
    destruct w1 as [s1 h1 e1 c1]. eexists. split; reflexivity. }
  destruct Hcommit as (w2 & Hrun2 & Hst2).
  exists w1, w2. repeat split; try assumption.
  - destruct w as [s h e c]. destruct senv as [n r [ce tw] cr te se].
    simpl in Hce. subst ce. unfold emitted.
    destruct tw;
      unfold safetyTask, when, Serial_println, vTaskDelay, onEmulator, record,
        setCurrentState, bind, ret; simpl;
      rewrite <- ?app_assoc; simpl; rewrite skipn_prefix; simpl; auto.
  - unfold emitted. rewrite sensorTask_run, Hst2. simpl. apply skipn_prefix.
Qed.

(** C2, as amended.  One call of the supervisory switch moves the state as the
    rules say when the two rules that leave [TuningActive] are taken in
    order, stealth first: [Init] goes to [Normal]; [Normal] goes to
    [TuningActive] when the tuning flag is set; [TuningActive] goes to
    [StealthMode] when the stealth flag is set, and otherwise to [Normal] when
    the tuning flag is clear; [StealthMode] goes to [TuningActive] when the
    stealth flag is clear; [Error] goes to [Normal] when recovery is
    reported; [Shutdown] ends in a restart.  Every change of state the switch
    makes is [Init -> Normal] or one of the listed rules. *)
Theorem loop_implements_transitions (env : Env) (w : World) :
  stateAfter (loop env w) = specTransition env (currentState w) /\
  (forall s',
     stateAfter (loop env w) = Some s' ->
     s' = currentState w \/
     (currentState w = SYSTEM_INIT /\ s' = SYSTEM_NORMAL) \/
     listed env (currentState w) s').
Proof.
  split.
  - apply loop_state.
  - intros s' H. rewrite loop_state in H. now apply specTransition_listed.
Qed.

(** C7. Entering [Shutdown], the supervisory switch prints its message, calls
    [disableTuning] once, then [sendShutdownMessage] once, then restarts the
    device; nothing else runs in that cycle, and no later cycle of the
    schedule runs either. *)
Theorem shutdown_sends_one_frame (env : Env) (w : World) (rest : list Step) :
  currentState w = SYSTEM_SHUTDOWN ->
  emitted (loop env) w =
    [SerialPrintln "System shutdown initiated"; EmuDisableTuning;
     CanSendShutdownMessage; EspRestart] /\
  occurrences EmuDisableTuning (emitted (loop env) w) = 1%nat /\
  occurrences CanSendShutdownMessage (emitted (loop env) w) = 1%nat /\
  stateAfter (loop env w) = None /\
  runSteps stealthModeBody (StepLoop env :: rest) w = loop env w.
Proof.
  destruct w as [s h e c]. simpl. intros ->.
  assert (He : emitted (loop env)
                 {| currentState := SYSTEM_SHUTDOWN; canBusHandler := h;
                    sensorEmulator := e; calls := c |} =
               [SerialPrintln "System shutdown initiated"; EmuDisableTuning;
                CanSendShutdownMessage; EspRestart]).
  { unfold emitted, loop, Serial_println, onEmulator, onHandler, ESP_restart,
      record, getCurrentState, bind; simpl.
    rewrite <- !app_assoc. simpl. apply skipn_prefix. }
  rewrite He. repeat split; reflexivity.
Qed.

(** C8, as amended.  A cycle of the CAN task and a cycle of the sensor task
    leave [currentState] as they found it.  A cycle of the safety task leaves
    it as it found it unless the health check reports [criticalError], in
    which case it writes [Error]. *)
Theorem state_writers (env : Env) (w : World) :
  stateAfter (canBusTask env w) = Some (currentState w) /\
  stateAfter (sensorTask stealthModeBody env w) = Some (currentState w) /\
  stateAfter (safetyTask env w) =
    Some (if criticalError (health env) then SYSTEM_ERROR else currentState w).
Proof.
  repeat split.
  - rewrite canBusTask_run. simpl. now destruct (canActive (currentState w)).
  - rewrite sensorTask_run. simpl. now destruct (currentState w).
  - destruct (safetyTask_runs env w) as (w1 & Hrun & Hst & _).
    rewrite Hrun. simpl. now rewrite Hst.
Qed.

(** C9. A cycle of the CAN task calls [processMessages] and then
    [sendHeartbeat] when the state is [Normal] or [TuningActive]; in every
    other state it calls neither and leaves the handler untouched. *)
Theorem canBusTask_gated_by_state (env : Env) (w : World) :
  emitted (canBusTask env) w =
    (if canActive (currentState w)
     then [CanProcessMessages; CanSendHeartbeat; TaskDelay 10]
     else [TaskDelay 10]) /\
  canBusHandler (worldOf (canBusTask env w)) =
    (if canActive (currentState w)
     then sendHeartbeat (now env) (processMessages (now env) (rx env) (canBusHandler w))
     else canBusHandler w) /\
  (canActive (currentState w) = true <->
   currentState w = SYSTEM_NORMAL \/ currentState w = SYSTEM_TUNING_ACTIVE).
Proof.
  repeat split.
  - unfold emitted. rewrite canBusTask_run.
    destruct (canActive (currentState w)); simpl; apply skipn_prefix.
  - rewrite canBusTask_run. now destruct (canActive (currentState w)).
  - apply canActive_spec.
  - apply canActive_spec.
Qed.

End SupervisorClaims.

(** ** Claims about the CAN handler *)

Section HandlerClaims.

Import CANBus Main.

Context {codec : Codec}.

Lemma acceptable_same_config (h h' : Handler) (m : CANMessage) :
  config h' = config h -> acceptable h' m = acceptable h m.
Proof. unfold acceptable. now intros ->. Qed.

Lemma processFrame_setup (now : Z) (h : Handler) (m : CANMessage) :
  config (processFrame now h m) = config h /\
  connectionTimeout (processFrame now h m) = connectionTimeout h.
Proof.
  unfold processFrame. destruct (acceptable h m) as [[g k]|]; split; reflexivity.
Qed.

Lemma sendHeartbeat_setup (now : Z) (h : Handler) :
  config (sendHeartbeat now h) = config h /\
  connectionTimeout (sendHeartbeat now h) = connectionTimeout h.
Proof.
  unfold sendHeartbeat, checkConnection.
  destruct (heartbeatDue now h); simpl;
    match goal with |- context [if ?b then _ else _] => destruct b end;
    split; reflexivity.
Qed.

Lemma react_setup (h : Handler) (ev : Event) :
  config (react h ev) = config h /\
  connectionTimeout (react h ev) = connectionTimeout h.
Proof.
  destruct ev as [now m|now]; simpl;
    [apply processFrame_setup | apply sendHeartbeat_setup].
Qed.

Lemma run_setup (evs : list Event) (h : Handler) :
  config (run evs h) = config h /\
  connectionTimeout (run evs h) = connectionTimeout h.
Proof.
  revert h. induction evs as [|ev evs IH]; intros h; simpl.
  - split; reflexivity.
  - destruct (IH (react h ev)) as [Hc Ht]. destruct (react_setup h ev) as [Hc' Ht'].
    fold (run evs (react h ev)). split; congruence.
Qed.

Lemma processFrame_rejected (now : Z) (h : Handler) (m : CANMessage) :
  acceptable h m = None -> processFrame now h m = countError h.
Proof. unfold processFrame. now intros ->. Qed.

(** A queue of malformed frames leaves the status alone and is counted frame
    by frame. *)
Lemma processMessages_all_rejected (now : Z) (rx : list CANMessage) (h : Handler) :
  Forall (fun m => acceptable h m = None) rx ->
  systemStatus (processMessages now rx h) = systemStatus h /\
  errorCount (processMessages now rx h) = errorCount h + Z.of_nat (List.length rx).
Proof.
  unfold processMessages. revert h.
  induction rx as [|m rx IH]; intros h Hall.
  - simpl. split; [reflexivity | lia].
  - inversion Hall as [|m' rx' Hm Hrest]; subst.
    cbn [fold_left]. rewrite (processFrame_rejected now h m Hm).
    destruct (IH (countError h)) as [Hs He].
    { eapply Forall_impl; [|exact Hrest]. intros a Ha.
      rewrite <- Ha. apply acceptable_same_config. reflexivity. }
    rewrite Hs, He. cbn [countError systemStatus errorCount List.length].
    split; [reflexivity | lia].
Qed.

(** Ticks and rejected frames after the status shows [t0] as the time of the
    last frame: the time stays, and the flag stays up exactly as long as every
    tick falls within the window. *)
Lemma quiet_run (h : Handler) (t0 : Z) (post : list Event) :
  forall hx,
    config hx = config h ->
    connectionTimeout hx = connectionTimeout h ->
    lastMessageTime (systemStatus hx) = t0 ->
    forallb (quiet h) post = true ->
    lastMessageTime (systemStatus (run post hx)) = t0 /\
    isConnected (systemStatus (run post hx)) =
      isConnected (systemStatus hx) && forallb (withinWindow h t0) (tickTimes post).
Proof.
  induction post as [|ev post IH]; intros hx Hc Ht Hl Hq.
  - simpl. split; [assumption | now rewrite andb_true_r].
  - cbn [forallb] in Hq. apply andb_true_iff in Hq. destruct Hq as [Hev Hq].
    unfold run. cbn [fold_left]. fold (run post (react hx ev)).
    destruct (react_setup hx ev) as [Hc' Ht'].
    destruct ev as [now m|now].
    + simpl in Hev.
      assert (Hrej : acceptable hx m = None).
      { rewrite (acceptable_same_config h hx m Hc).
        destruct (acceptable h m); [discriminate Hev | reflexivity]. }
      cbn [react] in *. rewrite (processFrame_rejected now hx m Hrej) in *.
      destruct (IH (countError hx)) as [H1 H2]; try assumption; try congruence.
      split; assumption.
    + cbn [react tickTimes forallb] in *.
      destruct (IH (sendHeartbeat now hx)) as [H1 H2]; try congruence; try assumption.
      { unfold sendHeartbeat, checkConnection.
        destruct (heartbeatDue now hx); simpl;
          match goal with |- context [if ?b then _ else _] => destruct b end;
          simpl; assumption. }
      split; [assumption|].
      rewrite H2. rewrite andb_assoc. f_equal.
      unfold withinWindow, sendHeartbeat, checkConnection.
      assert (Hst : forall hy,
                 systemStatus hy = systemStatus hx ->
                 connectionTimeout hy = connectionTimeout hx ->
                 isConnected (systemStatus
                   (if connectionTimeout hy <? elapsed now (lastMessageTime (systemStatus hy))
                    then withStatus (markDisconnected (systemStatus hy)) hy else hy)) =
                 isConnected (systemStatus hx) && (elapsed now t0 <=? connectionTimeout h)).
      { intros hy Hs Hto. rewrite Hs, Hto, Hl, Ht.
        destruct (connectionTimeout h <? elapsed now t0) eqn:E.
        - apply Z.ltb_lt in E.
          assert (E' : (elapsed now t0 <=? connectionTimeout h) = false)
            by (apply Z.leb_gt; lia).
          rewrite E'. simpl. now rewrite andb_false_r.
        - apply Z.ltb_ge in E.
          assert (E' : (elapsed now t0 <=? connectionTimeout h) = true)
            by (apply Z.leb_le; lia).
          rewrite E', Hs. now rewrite andb_true_r. }
      destruct (heartbeatDue now hx); apply Hst; reflexivity.
Qed.

(** C4, as amended.  After any history, a frame accepted at time [t0] raises
    the connected flag.  From then on, through any ticks and rejected frames,
    the status keeps [t0] as the time of the last frame, and right after each
    tick the flag is up exactly when every tick since the frame fell within
    the timeout window of [t0]: it is down whenever the elapsed time at a tick
    exceeds the window, and it does not drop within the window. *)
Theorem connected_follows_last_frame (h : Handler) (pre : list Event)
    (m : CANMessage) (t0 : Z) (post : list Event) :
  acceptable h m <> None ->
  forallb (quiet h) post = true ->
  isConnected (systemStatus (processFrame t0 (run pre h) m)) = true /\
  lastMessageTime (systemStatus (run post (processFrame t0 (run pre h) m))) = t0 /\
  isConnected (systemStatus (run post (processFrame t0 (run pre h) m))) =
    forallb (withinWindow h t0) (tickTimes post).
Proof.
  intros Hacc Hq.
  destruct (run_setup pre h) as [Hc Ht].
  assert (Hacc' : acceptable (run pre h) m <> None)
    by (now rewrite (acceptable_same_config h (run pre h) m Hc)).
  assert (H1 : isConnected (systemStatus (processFrame t0 (run pre h) m)) = true /\
               lastMessageTime (systemStatus (processFrame t0 (run pre h) m)) = t0).
  { unfold processFrame. destruct (acceptable (run pre h) m) as [[g k]|].
    - split; reflexivity.
    - now elim Hacc'. }
  destruct H1 as [Hconn Hlast].
  destruct (processFrame_setup t0 (run pre h) m) as [Hc1 Ht1].
  destruct (quiet_run h t0 post (processFrame t0 (run pre h) m)) as [Hl Hi];
    try congruence; try assumption.
  repeat split; try assumption.
  now rewrite Hi, Hconn.
Qed.

End HandlerClaims.

(** ** Claims about the sensor emulator *)

Section EmulatorClaims.

Import Emulator.

Lemma onCapture_frame (ts : Z) (e : SensorEmulator) :
  minInterval (onCapture ts e) = minInterval e /\
  maxInterval (onCapture ts e) = maxInterval e /\
  lastInputPulse (onCapture ts e) = U32.wrap ts /\
  newPulseReceived (onCapture ts e) = newPulseReceived e.
Proof. repeat split. Qed.

Lemma checkSignalTimeout_frame (now : Z) (e : SensorEmulator) :
  stats (checkSignalTimeout now e) = stats e /\
  minInterval (checkSignalTimeout now e) = minInterval e /\
  maxInterval (checkSignalTimeout now e) = maxInterval e /\
  lastInputPulse (checkSignalTimeout now e) = lastInputPulse e /\
  newPulseReceived (checkSignalTimeout now e) = newPulseReceived e.
Proof.
  unfold checkSignalTimeout.
  destruct (signalTimeout e <? U32.sub now (lastInputPulse e)); repeat split.
Qed.

(** One capture keeps the counters in range and balanced. *)
Lemma onCapture_balanced (ts : Z) (e : SensorEmulator) :
  statsInRange (stats e) ->
  countersBalanced (stats e) ->
  statsInRange (stats (onCapture ts e)) /\ countersBalanced (stats (onCapture ts e)).
Proof.
  unfold countersBalanced, statsInRange. intros (Ht & Hv & Hd) Hb.
  cbn [onCapture stats totalPulses validPulses droppedPulses].
  unfold U32.incr, U32.add in *.
  destruct (validInterval e (U32.sub ts (lastInputPulse e))).
  - repeat split; try apply u32_wrap_range; try apply Hd.
    rewrite <- Hb, u32_wrap_add_l, u32_wrap_add_l. f_equal. lia.
  - repeat split; try apply u32_wrap_range; try apply Hv.
    rewrite <- Hb, u32_wrap_add_r, u32_wrap_add_l. f_equal. lia.
Qed.

(** C5. After every sequence of captures and ticks, whatever the timestamps,
    the counters satisfy [validPulses + droppedPulses == totalPulses]; the
    valid count has grown by the number of captures that passed validation
    and the total by the number of captures. *)
Theorem counters_stay_balanced (evs : list Event) (e : SensorEmulator) :
  statsInRange (stats e) ->
  countersBalanced (stats e) ->
  countersBalanced (stats (run evs e)) /\
  validPulses (stats (run evs e)) =
    U32.wrap (validPulses (stats e) +
              Z.of_nat (passed (minInterval e) (maxInterval e) (lastInputPulse e) evs)) /\
  totalPulses (stats (run evs e)) =
    U32.wrap (totalPulses (stats e) + Z.of_nat (captures evs)).
Proof.
  revert e. induction evs as [|ev evs IH]; intros e Hr Hb.
  - destruct Hr as (Ht & Hv & Hd). cbn [run fold_left passed captures Z.of_nat].
    rewrite !Z.add_0_r, !u32_wrap_small by assumption. auto.
  - unfold run. cbn [fold_left]. fold (run evs (react e ev)).
    destruct ev as [ts|now]; cbn [react passed captures].
    + destruct (onCapture_balanced ts e Hr Hb) as [Hr1 Hb1].
      destruct (IH (onCapture ts e) Hr1 Hb1) as (Hbal & Hval & Htot).
      split; [assumption|]. rewrite Hval, Htot.
      cbn [onCapture stats validPulses totalPulses minInterval maxInterval lastInputPulse].
      unfold validInterval.
      split.
      * destruct (negb (U32.sub ts (lastInputPulse e) =? 0)
                  && (minInterval e <=? U32.sub ts (lastInputPulse e))
                  && (U32.sub ts (lastInputPulse e) <=? maxInterval e)).
        -- unfold U32.incr, U32.add. rewrite u32_wrap_add_l. f_equal.
           rewrite Nat2Z.inj_add. simpl Z.of_nat at 1. lia.
        -- reflexivity.
      * unfold U32.incr, U32.add. rewrite u32_wrap_add_l. f_equal. lia.
    + destruct (checkSignalTimeout_frame now e) as (Hs & Hlo & Hhi & Hl & _).
      destruct (IH (checkSignalTimeout now e)) as (Hbal & Hval & Htot);
        try (rewrite Hs; assumption).
      rewrite Hs, Hlo, Hhi, Hl in *. auto.
Qed.

(** *** Comparison of [float] values *)

Lemma SFcompare_antisym (x y : float) (c : comparison) :
  SFcompare x y = Some c -> SFcompare y x = Some (CompOpp c).
Proof.
  destruct x as [sx|sx| |sx mx ex], y as [sy|sy| |sy my ey]; simpl;
    intros H; try discriminate H; injection H as <-;
    try (destruct sx; reflexivity); try (destruct sy; reflexivity);
    try (destruct sx, sy; reflexivity).
  destruct sx, sy; try reflexivity;
    rewrite (Z.compare_antisym ex ey);
    destruct (ex ?= ey); simpl; try reflexivity;
    rewrite (Pos.compare_cont_antisym mx my Eq); reflexivity.
Qed.

Lemma SFcompare_defined (x y : float) :
  isNaN x = false -> isNaN y = false -> exists c, SFcompare x y = Some c.
Proof.
  destruct x, y; simpl; intros Hx Hy; try discriminate; eexists; reflexivity.
Qed.

Lemma SFleb_refl (x : float) : isNaN x = false -> SFleb x x = true.
Proof.
  unfold SFleb. destruct x as [s|s| |s m e]; simpl; intros H; try discriminate H;
    try (destruct s; reflexivity).
  destruct s; rewrite Z.compare_refl, Pos.compare_cont_refl; reflexivity.
Qed.

(** The clamp, on values that are numbers. *)
Lemma clamp_spec (ceiling x : float) :
  isNaN ceiling = false -> isNaN x = false ->
  SFleb (if SFltb ceiling x then ceiling else x) ceiling = true /\
  (SFleb x ceiling = true -> (if SFltb ceiling x then ceiling else x) = x).
Proof.
  intros Hc Hx.
  destruct (SFcompare_defined ceiling x Hc Hx) as [c Hcmp].
  pose proof (SFcompare_antisym ceiling x c Hcmp) as Hanti.
  assert (Hlt : SFltb ceiling x = match c with Lt => true | _ => false end)
    by (unfold SFltb; rewrite Hcmp; now destruct c).
  assert (Hle : SFleb x ceiling = match c with Lt => false | _ => true end)
    by (unfold SFleb; rewrite Hanti; now destruct c).
  rewrite Hlt. destruct c; split; try assumption; try reflexivity.
  - now apply SFleb_refl.
  - rewrite Hle. discriminate.
Qed.

(** C6. In Eco mode with ceiling [C], the output speed is at most [C] for
    every input speed, and equals the input speed whenever the input speed is
    at most [C]. *)
Theorem eco_mode_clamps (lim : ModeLimits) (inputSpeed : float) :
  isNaN (ecoCeiling lim) = false ->
  isNaN inputSpeed = false ->
  SFleb (applyModeProcessing lim MODE_ECO inputSpeed) (ecoCeiling lim) = true /\
  (SFleb inputSpeed (ecoCeiling lim) = true ->
   applyModeProcessing lim MODE_ECO inputSpeed = inputSpeed).
Proof.
  intros Hc Hx. unfold applyModeProcessing, processEcoMode.
  now apply clamp_spec.
Qed.

(** *** The hand-off by flag *)









End EmulatorClaims.

(** ** Concrete runs *)

Section ConcreteRuns.

Import CANBus Emulator Main.

(** The switch in [Normal] with the tuning flag set: the state changes, the
    message is printed, and the cycle ends with its delay. *)
Example loop_activates_tuning :
  stateAfter (loop (tunedEnv 10 []) (sampleWorld SYSTEM_NORMAL)) = Some SYSTEM_TUNING_ACTIVE /\
  emitted (loop (tunedEnv 10 [])) (sampleWorld SYSTEM_NORMAL) =
    [SerialPrintln "Tuning activated"; Delay 100].
Proof. split; reflexivity. Qed.

Example speed_frame_accepted :
  acceptable sampleHandler sampleSpeedFrame = Some (BOSCH_GEN3, Speed) /\
  currentSpeed (systemStatus (processFrame 0 sampleHandler sampleSpeedFrame)) = 2500.
Proof. split; reflexivity. Qed.

(** Three consecutive checksum failures on the speed id, generation 3: the
    status is unchanged and the error counter reads 3. *)
Example three_checksum_failures :
  let h := processMessages 50
             [corruptSpeedFrame; corruptSpeedFrame; corruptSpeedFrame] sampleHandler in
  systemStatus h = systemStatus sampleHandler /\ errorCount h = 3.
Proof. split; reflexivity. Qed.

(** Eco ceiling 25: 20 km/h passes through, 40 km/h is clamped to 25. *)
Example eco_scenarios :
  processEcoMode f25 f20 = f20 /\ processEcoMode f25 f40 = f25.
Proof. split; reflexivity. Qed.

(** Witness of C1's failing run: the switch has read [Normal] with the tuning
    flag set; the safety cycle sees a critical error; the assignment
    follows. *)
Lemma critical_error_overwritten_by_loop_witness :
  currentState (sampleWorld SYSTEM_NORMAL) = SYSTEM_NORMAL /\
  isTuningEnabled racingEnv = true /\
  criticalError (health criticalEnv) = true /\
  exists w1 w2,
    safetyTask criticalEnv (sampleWorld SYSTEM_NORMAL) = Running tt w1 /\
    currentState w1 = SYSTEM_ERROR /\
    loopCommit (loopDecide racingEnv SYSTEM_NORMAL) w1 = Running tt w2 /\
    currentState w2 = SYSTEM_TUNING_ACTIVE /\
    emitted (sensorTask idleStealth racingEnv) w2 = [EmuProcessSpeedSignal; TaskDelay 5].
Proof.
  split; [reflexivity|]. split; [reflexivity|]. split; [reflexivity|].
  destruct (critical_error_overwritten_by_loop idleStealth racingEnv criticalEnv racingEnv
              (sampleWorld SYSTEM_NORMAL) eq_refl eq_refl eq_refl)
    as (w1 & w2 & H1 & H2 & _ & H3 & H4 & H5).
  exists w1, w2. repeat split; assumption.
Defined.

(** Counterexample to C2 as stated: in [TuningActive] with the tuning flag
    clear, the rule to [Normal] applies, yet with the stealth flag set the
    switch goes to [StealthMode]. *)
Lemma tuning_flag_clear_yet_stealth :
  isTuningEnabled stealthOnlyEnv = false /\
  listed stealthOnlyEnv SYSTEM_TUNING_ACTIVE SYSTEM_NORMAL /\
  stateAfter (loop stealthOnlyEnv (sampleWorld SYSTEM_TUNING_ACTIVE))
    = Some SYSTEM_STEALTH_MODE /\
  stateAfter (loop stealthOnlyEnv (sampleWorld SYSTEM_TUNING_ACTIVE))
    <> Some SYSTEM_NORMAL.
Proof.
  repeat split.
  - now constructor.
  - discriminate.
Qed.

(** Counterexample to C4 as stated: five seconds after the last accepted
    frame, with a window of one second, the system is in [StealthMode], the
    CAN task has just run a cycle, and the connected flag is still up. *)
Lemma connected_stale_in_stealth :
  let w := worldOf (runSteps idleStealth stealthSchedule (sampleWorld SYSTEM_NORMAL)) in
  currentState w = SYSTEM_STEALTH_MODE /\
  lastMessageTime (systemStatus (canBusHandler w)) = 0 /\
  connectionTimeout (canBusHandler w) = 1000 /\
  elapsed 5000 (lastMessageTime (systemStatus (canBusHandler w))) = 5000 /\
  isConnected (systemStatus (canBusHandler w)) = true.
Proof. vm_compute. repeat split. Qed.

(** Witness of C4: a frame accepted at 100 ms, then ticks at 600, 1100 and
    1101 ms with a corrupt frame in between; the third tick is the first
    outside the window. *)
Lemma connected_follows_last_frame_witness :
  acceptable sampleHandler sampleSpeedFrame <> None /\
  isConnected (systemStatus
    (CANBus.run [CANBus.Tick 600; Received 700 corruptSpeedFrame; CANBus.Tick 1100]
       (processFrame 100 (CANBus.run [] sampleHandler) sampleSpeedFrame))) = true /\
  isConnected (systemStatus
    (CANBus.run [CANBus.Tick 600; Received 700 corruptSpeedFrame; CANBus.Tick 1100; CANBus.Tick 1101]
       (processFrame 100 (CANBus.run [] sampleHandler) sampleSpeedFrame))) = false.
Proof.
  assert (Hacc : acceptable sampleHandler sampleSpeedFrame <> None)
    by (vm_compute; discriminate).
  split; [exact Hacc|]. split.
  - destruct (connected_follows_last_frame sampleHandler [] sampleSpeedFrame 100
                [CANBus.Tick 600; Received 700 corruptSpeedFrame; CANBus.Tick 1100] Hacc eq_refl)
      as (_ & _ & H). exact H.
  - destruct (connected_follows_last_frame sampleHandler [] sampleSpeedFrame 100
                [CANBus.Tick 600; Received 700 corruptSpeedFrame; CANBus.Tick 1100; CANBus.Tick 1101]
                Hacc eq_refl)
      as (_ & _ & H). exact H.
Defined.

(** Witness of C5: a first capture, a repeated timestamp (zero interval), an
    older timestamp, a tick, and a regular capture. *)
Lemma counters_stay_balanced_witness :
  statsInRange sampleStats /\
  countersBalanced sampleStats /\
  countersBalanced
    (stats (Emulator.run [Capture 100; Capture 100; Capture 40; Emulator.Tick 45; Capture 60]
              sampleEmulator)) /\
  validPulses
    (stats (Emulator.run [Capture 100; Capture 100; Capture 40; Emulator.Tick 45; Capture 60]
              sampleEmulator)) = 2.
Proof.
  assert (Hr : statsInRange (stats sampleEmulator))
    by (unfold statsInRange, U32.inRange; simpl; repeat split; try lia; reflexivity).
  assert (Hb : countersBalanced (stats sampleEmulator)) by reflexivity.
  split; [exact Hr|]. split; [exact Hb|].
  destruct (counters_stay_balanced
              [Capture 100; Capture 100; Capture 40; Emulator.Tick 45; Capture 60]
              sampleEmulator Hr Hb) as (H1 & H2 & _).
  split; [exact H1 | exact H2].
Defined.

(** Witness of C6: ceiling 25, input 40. *)
Lemma eco_mode_clamps_witness :
  let lim := {| ecoCeiling := f25; sportCeiling := f40;
                stealthThreshold := f25; stealthReported := f20 |} in
  isNaN f25 = false /\ isNaN f40 = false /\
  SFleb (applyModeProcessing lim MODE_ECO f40) f25 = true.
Proof.
  intros lim. split; [reflexivity|]. split; [reflexivity|].
  exact (proj1 (eco_mode_clamps lim f40 eq_refl eq_refl)).
Defined.

(** Witness of C7: the switch called in [Shutdown]. *)
Lemma shutdown_sends_one_frame_witness :
  currentState (sampleWorld SYSTEM_SHUTDOWN) = SYSTEM_SHUTDOWN /\
  emitted (loop quietEnv) (sampleWorld SYSTEM_SHUTDOWN) =
    [SerialPrintln "System shutdown initiated"; EmuDisableTuning;
     CanSendShutdownMessage; EspRestart].
Proof.
  split; [reflexivity|].
  exact (proj1 (shutdown_sends_one_frame idleStealth quietEnv
                  (sampleWorld SYSTEM_SHUTDOWN) [StepLoop quietEnv] eq_refl)).
Defined.

(** Counterexample to C8 as stated: a cycle of the safety task that finds
    [Normal] and a critical error leaves [Error]. *)
Lemma safety_task_writes_state :
  currentState (sampleWorld SYSTEM_NORMAL) = SYSTEM_NORMAL /\
  stateAfter (safetyTask criticalEnv (sampleWorld SYSTEM_NORMAL)) = Some SYSTEM_ERROR.
Proof. split; reflexivity. Qed.



End ConcreteRuns.

(** ** Schedules of task cycles *)

Section ScheduleFacts.

Import CANBus Emulator Main Schedule.

Context {codec : Codec}.
Variable stealthModeBody : Z -> SensorEmulator -> SensorEmulator.

Lemma occurrences_app (c : Call) (l1 l2 : list Call) :
  occurrences c (l1 ++ l2) = (occurrences c l1 + occurrences c l2)%nat.
Proof. unfold occurrences. now rewrite filter_app, length_app. Qed.

Lemma count_cons (p : Step -> bool) (st : Step) (sts : list Step) :
  count p (st :: sts) = ((if p st then 1 else 0) + count p sts)%nat.
Proof. unfold count. simpl. now destruct (p st). Qed.

(** Case analysis on a cycle: which task, what it reads, which state. *)
Ltac cases_of st s :=
  destruct st as [[n r [ce tw] cr te se]|[n r [ce tw] cr te se]
                 |[n r [ce tw] cr te se]|[n r [ce tw] cr te se]];
  destruct s; simpl in *; try discriminate; try congruence.

Lemma safetyTask_run_calls (env : Env) (w : World) :
  exists w',
    safetyTask env w = Running tt w' /\
    currentState w' = nextState (StepSafety env) (currentState w) /\
    calls w' = calls w ++ safetyCalls (health env).
Proof.
  destruct w as [s h e c]. destruct env as [n r [ce tw] cr te se].
  destruct ce, tw;
    unfold safetyTask, when, Serial_println, vTaskDelay, onEmulator, record,
      setCurrentState, bind, ret; simpl;
    eexists; repeat split; simpl; rewrite <- ?app_assoc; reflexivity.
Qed.

Lemma loop_run_calls (env : Env) (w : World) :
  currentState w <> SYSTEM_SHUTDOWN ->
  exists w',
    loop env w = Running tt w' /\
    currentState w' = nextState (StepLoop env) (currentState w) /\
    calls w' = calls w ++ loopCalls env (currentState w).
Proof.
  destruct w as [s h e c]. destruct env as [n r hl cr te se]. simpl. intros Hs.
  destruct s, cr, te, se; try (exfalso; apply Hs; reflexivity);
    unfold loop, when, Serial_println, delay, record, setCurrentState,
      getCurrentState, bind, ret; simpl;
    eexists; repeat split; simpl; rewrite <- ?app_assoc; reflexivity.
Qed.

(** One cycle, outside [Shutdown]: it returns, in the state and with the calls
    the summary functions give. *)
Lemma step_summary (st : Step) (w : World) :
  currentState w <> SYSTEM_SHUTDOWN ->
  exists w',
    step stealthModeBody st w = Running tt w' /\
    currentState w' = nextState st (currentState w) /\
    calls w' = calls w ++ stepCalls st (currentState w).
Proof.
  intros Hs. destruct st as [env|env|env|env]; cbn [step].
  - rewrite canBusTask_run. eexists. split; [reflexivity|].
    cbn [nextState stepCalls]. destruct (canActive (currentState w)); split; reflexivity.
  - rewrite sensorTask_run. eexists. split; [reflexivity|].
    cbn [nextState stepCalls]. destruct (currentState w); split; reflexivity.
  - apply safetyTask_run_calls.
  - now apply loop_run_calls.
Qed.

Lemma nextState_not_shutdown (st : Step) (s : SystemState) :
  s <> SYSTEM_SHUTDOWN -> nextState st s <> SYSTEM_SHUTDOWN.
Proof.
  intros Hs. cases_of st s; destruct ce; try discriminate;
    try destruct te; try destruct se; try destruct cr; discriminate.
Qed.

(** A schedule started outside [Shutdown] runs to its end. *)
Lemma runSteps_summary (sts : list Step) :
  forall w,
    currentState w <> SYSTEM_SHUTDOWN ->
    exists w',
      runSteps stealthModeBody sts w = Running tt w' /\
      currentState w' = finalState sts (currentState w) /\
      calls w' = calls w ++ scheduleCalls sts (currentState w).
Proof.
  induction sts as [|st sts IH]; intros w Hs.
  - exists w. cbn. rewrite app_nil_r. repeat split.
  - destruct (step_summary st w Hs) as (w1 & Hrun & Hst & Hcalls).
    assert (Hs1 : currentState w1 <> SYSTEM_SHUTDOWN)
      by (rewrite Hst; now apply nextState_not_shutdown).
    destruct (IH w1 Hs1) as (w2 & Hrun2 & Hst2 & Hcalls2).
    exists w2. cbn [runSteps finalState scheduleCalls]. unfold bind. rewrite Hrun.
    split; [exact Hrun2|]. split.
    + now rewrite Hst2, Hst.
    + now rewrite Hcalls2, Hcalls, Hst, app_assoc.
Qed.

Lemma emitted_schedule (sts : list Step) (w : World) :
  currentState w <> SYSTEM_SHUTDOWN ->
  emitted (runSteps stealthModeBody sts) w = scheduleCalls sts (currentState w).
Proof.
  intros Hs. destruct (runSteps_summary sts w Hs) as (w' & Hrun & _ & Hcalls).
  unfold emitted. rewrite Hrun. cbn [worldOf]. rewrite Hcalls. apply skipn_prefix.
Qed.

(** An invariant of the state and a condition on the calls, kept by every
    cycle that meets [ok], are kept by every schedule of such cycles. *)
Lemma schedule_invariant (I : SystemState -> bool) (ok : Step -> bool) (good : Call -> bool) :
  (forall st s, ok st = true -> I s = true ->
                I (nextState st s) = true /\ forallb good (stepCalls st s) = true) ->
  forall sts s,
    forallb ok sts = true -> I s = true ->
    I (finalState sts s) = true /\ forallb good (scheduleCalls sts s) = true.
Proof.
  intros Hstep. induction sts as [|st sts IH]; intros s Hok HI.
  - split; [assumption | reflexivity].
  - cbn [forallb] in Hok. apply andb_true_iff in Hok. destruct Hok as [Hst Hrest].
    destruct (Hstep st s Hst HI) as [HI1 Hg1].
    destruct (IH (nextState st s) Hrest HI1) as [HI2 Hg2].
    cbn [finalState scheduleCalls]. split; [assumption|].
    rewrite forallb_app. now rewrite Hg1, Hg2.
Qed.

Lemma occurrences_none (c : Call) (good : Call -> bool) (l : list Call) :
  (forall x, good x = true -> Call_eqb c x = false) ->
  forallb good l = true -> occurrences c l = O.
Proof.
  intros Hg. unfold occurrences. induction l as [|x l IH]; intros H.
  - reflexivity.
  - cbn [forallb] in H. apply andb_true_iff in H. destruct H as [Hx Hl].
    cbn [filter]. rewrite (Hg x Hx). now apply IH.
Qed.

Lemma forallb_all_true {A} (l : list A) : forallb (fun _ => true) l = true.
Proof. induction l; simpl; auto. Qed.

Ltac split_flags :=
  repeat match goal with
         | b : bool |- _ => destruct b
         end.

Ltac none_by good :=
  apply (occurrences_none _ good);
  [ intros x; unfold good; destruct x; cbn; intros Hx;
    try reflexivity; try discriminate Hx
  | assumption ].

(** X1. Started in [Normal], [TuningActive], [StealthMode] or [Error], every
    schedule of cycles runs to its end within these four states: no cycle
    assigns [Init] or [Shutdown], so the shutdown frame is never sent and the
    device never restarts. *)
Theorem operational_states_closed (sts : list Step) (w : World) :
  operational (currentState w) = true ->
  exists w',
    runSteps stealthModeBody sts w = Running tt w' /\
    operational (currentState w') = true /\
    occurrences CanSendShutdownMessage (emitted (runSteps stealthModeBody sts) w) = O /\
    occurrences EspRestart (emitted (runSteps stealthModeBody sts) w) = O.
Proof.
  intros Hop.
  assert (Hs : currentState w <> SYSTEM_SHUTDOWN) by (intros E; rewrite E in Hop; discriminate).
  destruct (runSteps_summary sts w Hs) as (w' & Hrun & Hst & _).
  rewrite (emitted_schedule sts w Hs).
  destruct (schedule_invariant operational (fun _ => true) notShutdownCall) with
    (sts := sts) (s := currentState w) as [HI Hg];
    [ | apply forallb_all_true | assumption | ].
  - intros st s _ H. cases_of st s; split_flags; split; reflexivity.
  - exists w'. rewrite Hst. repeat split; try assumption; none_by notShutdownCall.
Qed.

(** X2. Outside [Error] and [Shutdown], a schedule in which no safety cycle
    sees a critical error never enters [Error] and never calls
    [disableTuning]. *)
Theorem error_only_from_safety (sts : list Step) (w : World) :
  currentState w <> SYSTEM_ERROR ->
  currentState w <> SYSTEM_SHUTDOWN ->
  forallb calm sts = true ->
  exists w',
    runSteps stealthModeBody sts w = Running tt w' /\
    currentState w' <> SYSTEM_ERROR /\
    occurrences EmuDisableTuning (emitted (runSteps stealthModeBody sts) w) = O.
Proof.
  intros He Hs Hcalm.
  destruct (runSteps_summary sts w Hs) as (w' & Hrun & Hst & _).
  rewrite (emitted_schedule sts w Hs).
  pose (I := fun s => negb (SystemState_eqb s SYSTEM_ERROR)
                      && negb (SystemState_eqb s SYSTEM_SHUTDOWN)).
  destruct (schedule_invariant I calm notDisable) with
    (sts := sts) (s := currentState w) as [HI Hg]; [ | assumption | | ].
  - intros st s Hok H. unfold I in *. cases_of st s; split_flags;
      simpl in *; try discriminate; split; reflexivity.
  - unfold I. destruct (currentState w); simpl; congruence.
  - exists w'. rewrite Hst. repeat split; try assumption.
    + unfold I in HI. intros E. rewrite E in HI. discriminate.
    + none_by notDisable.
Qed.


(** X4. With the tuning flag clear at every supervisory cycle, a system in
    [Init], [Normal] or [Error] stays within these states, whatever the
    stealth flag: neither processing path of the emulator is ever called. *)
Theorem tuning_off_no_processing (sts : list Step) (w : World) :
  untuned (currentState w) = true ->
  forallb tuningOff sts = true ->
  exists w',
    runSteps stealthModeBody sts w = Running tt w' /\
    untuned (currentState w') = true /\
    occurrences EmuProcessSpeedSignal (emitted (runSteps stealthModeBody sts) w) = O /\
    occurrences EmuStealthMode (emitted (runSteps stealthModeBody sts) w) = O.
Proof.
  intros Hu Hoff.
  assert (Hs : currentState w <> SYSTEM_SHUTDOWN) by (intros E; rewrite E in Hu; discriminate).
  destruct (runSteps_summary sts w Hs) as (w' & Hrun & Hst & _).
  rewrite (emitted_schedule sts w Hs).
  destruct (schedule_invariant untuned tuningOff notProcessing)
    with (sts := sts) (s := currentState w) as [HI Hg];
    [ | assumption | assumption | ].
  - intros st s Hok H. cases_of st s; split_flags;
      simpl in *; try discriminate; split; reflexivity.
  - exists w'. rewrite Hst. repeat split; try assumption; none_by notProcessing.
Qed.

Lemma forallb_both {A} (p q : A -> bool) (l : list A) :
  forallb p l = true -> forallb q l = true ->
  forallb (fun x => p x && q x) l = true.
Proof.
  induction l as [|x l IH]; simpl; intros Hp Hq; [reflexivity|].
  apply andb_true_iff in Hp. apply andb_true_iff in Hq.
  destruct Hp as [-> Hp], Hq as [-> Hq]. simpl. now apply IH.
Qed.

Lemma stealth_calls_counted (sts : list Step) :
  forallb (fun st => stealthOn st && calm st) sts = true ->
  occurrences EmuStealthMode (scheduleCalls sts SYSTEM_STEALTH_MODE) = count isSensorStep sts.
Proof.
  induction sts as [|st sts IH]; intros Hok; [reflexivity|].
  cbn [forallb] in Hok. apply andb_true_iff in Hok. destruct Hok as [Hst Hrest].
  cbn [scheduleCalls]. rewrite occurrences_app, count_cons.
  assert (Hn : nextState st SYSTEM_STEALTH_MODE = SYSTEM_STEALTH_MODE /\
               occurrences EmuStealthMode (stepCalls st SYSTEM_STEALTH_MODE) =
               (if isSensorStep st then 1 else 0)%nat).
  { destruct st as [[n r [ce tw] cr te se]|[n r [ce tw] cr te se]
                   |[n r [ce tw] cr te se]|[n r [ce tw] cr te se]];
      simpl in *; split_flags; simpl in *; try discriminate; split; reflexivity. }
  destruct Hn as [-> ->]. now rewrite IH.
Qed.

(** X5. In [StealthMode], as long as every supervisory cycle reads the stealth
    flag set and no safety cycle sees a critical error, the state stays
    [StealthMode] whatever the tuning flag: every sensor cycle calls
    [stealthMode], and no cycle calls [processMessages], [sendHeartbeat] or
    [processSpeedSignal]. *)
Theorem stealth_persists (sts : list Step) (w : World) :
  currentState w = SYSTEM_STEALTH_MODE ->
  forallb stealthOn sts = true ->
  forallb calm sts = true ->
  exists w',
    runSteps stealthModeBody sts w = Running tt w' /\
    currentState w' = SYSTEM_STEALTH_MODE /\
    occurrences EmuStealthMode (emitted (runSteps stealthModeBody sts) w)
      = count isSensorStep sts /\
    occurrences CanProcessMessages (emitted (runSteps stealthModeBody sts) w) = O /\
    occurrences CanSendHeartbeat (emitted (runSteps stealthModeBody sts) w) = O /\
    occurrences EmuProcessSpeedSignal (emitted (runSteps stealthModeBody sts) w) = O.
Proof.
  intros He Hon Hcalm.
  assert (Hs : currentState w <> SYSTEM_SHUTDOWN) by (rewrite He; discriminate).
  pose proof (forallb_both stealthOn calm sts Hon Hcalm) as Hok.
  destruct (runSteps_summary sts w Hs) as (w' & Hrun & Hst & _).
  rewrite (emitted_schedule sts w Hs).
  destruct (schedule_invariant (fun s => SystemState_eqb s SYSTEM_STEALTH_MODE)
              (fun st => stealthOn st && calm st) stealthOnly)
    with (sts := sts) (s := currentState w) as [HI Hg];
    [ | assumption | now rewrite He | ].
  - intros st s Hst' H. cases_of st s; split_flags;
      simpl in *; try discriminate; split; reflexivity.
  - exists w'. rewrite Hst. repeat split; try assumption; try none_by stealthOnly.
    + destruct (finalState sts (currentState w)); try discriminate HI. reflexivity.
    + rewrite He. now apply stealth_calls_counted.
Qed.

Lemma performance_calls_counted (sts : list Step) :
  forall s,
    s <> SYSTEM_SHUTDOWN ->
    occurrences (EmuSetPerformanceMode PERFORMANCE_REDUCED) (scheduleCalls sts s)
      = count warns sts /\
    occurrences (EmuSetPerformanceMode PERFORMANCE_NORMAL) (scheduleCalls sts s) = O /\
    occurrences (EmuSetPerformanceMode PERFORMANCE_MAXIMUM) (scheduleCalls sts s) = O.
Proof.
  induction sts as [|st sts IH]; intros s Hs; [repeat split|].
  destruct (IH (nextState st s) (nextState_not_shutdown st s Hs)) as (H1 & H2 & H3).
  cbn [scheduleCalls]. rewrite !occurrences_app, count_cons, H1, H2, H3.
  assert (Hn : occurrences (EmuSetPerformanceMode PERFORMANCE_REDUCED) (stepCalls st s)
                 = (if warns st then 1 else 0)%nat /\
               occurrences (EmuSetPerformanceMode PERFORMANCE_NORMAL) (stepCalls st s) = O /\
               occurrences (EmuSetPerformanceMode PERFORMANCE_MAXIMUM) (stepCalls st s) = O).
  { cases_of st s; split_flags; repeat split. }
  destruct Hn as (-> & -> & ->). repeat split.
Qed.

(** X6. Over a schedule started outside [Shutdown], [setPerformanceMode] is
    called once for every safety cycle that sees a temperature warning,
    always with [PERFORMANCE_REDUCED]: no cycle ever sets the performance
    mode back to normal or to maximum. *)
Theorem performance_only_reduced (sts : list Step) (w : World) :
  currentState w <> SYSTEM_SHUTDOWN ->
  occurrences (EmuSetPerformanceMode PERFORMANCE_REDUCED)
    (emitted (runSteps stealthModeBody sts) w) = count warns sts /\
  occurrences (EmuSetPerformanceMode PERFORMANCE_NORMAL)
    (emitted (runSteps stealthModeBody sts) w) = O /\
  occurrences (EmuSetPerformanceMode PERFORMANCE_MAXIMUM)
    (emitted (runSteps stealthModeBody sts) w) = O.
Proof.
  intros Hs. rewrite (emitted_schedule sts w Hs).
  now apply performance_calls_counted.
Qed.

(** X7. A safety cycle that finds [Shutdown] and sees a critical error writes
    [Error] over it: whatever cycles follow, the shutdown frame is not sent
    and the device does not restart. *)
Theorem critical_error_cancels_shutdown (env : Env) (sts : list Step) (w : World) :
  currentState w = SYSTEM_SHUTDOWN ->
  criticalError (health env) = true ->
  exists w',
    runSteps stealthModeBody (StepSafety env :: sts) w = Running tt w' /\
    operational (currentState w') = true /\
    occurrences CanSendShutdownMessage
      (emitted (runSteps stealthModeBody (StepSafety env :: sts)) w) = O /\
    occurrences EspRestart
      (emitted (runSteps stealthModeBody (StepSafety env :: sts)) w) = O.
Proof.
  intros Hsd Hce.
  destruct (safetyTask_run_calls env w) as (w1 & Hrun1 & Hst1 & Hcalls1).
  cbn [nextState] in Hst1. rewrite Hce in Hst1.
  assert (Hs1 : currentState w1 <> SYSTEM_SHUTDOWN) by (rewrite Hst1; discriminate).
  destruct (runSteps_summary sts w1 Hs1) as (w2 & Hrun2 & Hst2 & Hcalls2).
  destruct (schedule_invariant operational (fun _ => true) notShutdownCall) with
    (sts := sts) (s := currentState w1) as [HI Hg];
    [ | apply forallb_all_true | now rewrite Hst1 | ].
  { intros st s _ H. cases_of st s; split_flags; split; reflexivity. }
  assert (Hem : emitted (runSteps stealthModeBody (StepSafety env :: sts)) w =
                safetyCalls (health env) ++ scheduleCalls sts (currentState w1)).
  { unfold emitted. cbn [runSteps step]. unfold bind. rewrite Hrun1, Hrun2.
    cbn [worldOf]. rewrite Hcalls2, Hcalls1, <- app_assoc. apply skipn_prefix. }
  exists w2. rewrite Hem, !occurrences_app.
  split; [cbn [runSteps step]; unfold bind; now rewrite Hrun1|].
  split; [now rewrite Hst2|].
  assert (Hsafe : occurrences CanSendShutdownMessage (safetyCalls (health env)) = O /\
                  occurrences EspRestart (safetyCalls (health env)) = O).
  { destruct (health env) as [ce tw]. destruct ce, tw; split; reflexivity. }
  destruct Hsafe as [-> ->].
  split; simpl; none_by notShutdownCall.
Qed.

Lemma no_loop_no_stealth (sts : list Step) :
  forall s,
    count isLoopStep sts = O ->
    s <> SYSTEM_STEALTH_MODE -> s <> SYSTEM_SHUTDOWN ->
    finalState sts s <> SYSTEM_STEALTH_MODE /\
    forallb notStealthCall (scheduleCalls sts s) = true.
Proof.
  induction sts as [|st sts IH]; intros s Hc H1 H2.
  - split; [assumption | reflexivity].
  - rewrite count_cons in Hc.
    destruct st as [env|env|env|env]; cbn [isLoopStep] in Hc; try discriminate Hc;
      cbn [finalState scheduleCalls]; rewrite forallb_app.
    + destruct (IH s Hc H1 H2) as [Hf Hg]. cbn [nextState]. split; [assumption|].
      rewrite Hg. cbn [stepCalls]. now destruct (canActive s).
    + destruct (IH s Hc H1 H2) as [Hf Hg]. cbn [nextState]. split; [assumption|].
      rewrite Hg. destruct s; try reflexivity. now elim H1.
    + cbn [nextState stepCalls].
      destruct (IH (if criticalError (health env) then SYSTEM_ERROR else s) Hc) as [Hf Hg].
      * destruct (criticalError (health env)); [discriminate | assumption].
      * destruct (criticalError (health env)); [discriminate | assumption].
      * split; [assumption|]. rewrite Hg.
        destruct (health env) as [ce tw]. now destruct ce, tw.
Qed.

(** X8. From [Normal], a schedule with at most one supervisory cycle never
    reaches [StealthMode] and never calls [stealthMode], whatever the flags:
    entering stealth takes two supervisory cycles, through [TuningActive]. *)
Theorem stealth_needs_two_cycles (sts : list Step) (w : World) :
  currentState w = SYSTEM_NORMAL ->
  (count isLoopStep sts <= 1)%nat ->
  exists w',
    runSteps stealthModeBody sts w = Running tt w' /\
    currentState w' <> SYSTEM_STEALTH_MODE /\
    occurrences EmuStealthMode (emitted (runSteps stealthModeBody sts) w) = O.
Proof.
  intros Hn Hc.
  assert (Hs : currentState w <> SYSTEM_SHUTDOWN) by (rewrite Hn; discriminate).
  destruct (runSteps_summary sts w Hs) as (w' & Hrun & Hst & _).
  rewrite (emitted_schedule sts w Hs).
  assert (H : forall l s,
             (count isLoopStep l <= 1)%nat -> untuned s = true ->
             finalState l s <> SYSTEM_STEALTH_MODE /\
             forallb notStealthCall (scheduleCalls l s) = true).
  { clear. induction l as [|st l IH]; intros s Hc Hu.
    - split; [|reflexivity]. intros E. cbn in E. rewrite E in Hu. discriminate.
    - rewrite count_cons in Hc. cbn [finalState scheduleCalls]. rewrite forallb_app.
      destruct st as [env|env|env|env]; cbn [isLoopStep] in Hc.
      + destruct (IH s Hc Hu) as [Hf Hg]. cbn [nextState]. split; [assumption|].
        rewrite Hg. cbn [stepCalls]. now destruct (canActive s).
      + destruct (IH s Hc Hu) as [Hf Hg]. cbn [nextState]. split; [assumption|].
        rewrite Hg. now destruct s.
      + cbn [nextState stepCalls].
        destruct (IH (if criticalError (health env) then SYSTEM_ERROR else s) Hc) as [Hf Hg].
        * now destruct (criticalError (health env)).
        * split; [assumption|]. rewrite Hg.
          destruct (health env) as [ce tw]. now destruct ce, tw.
      + assert (Hc0 : count isLoopStep l = O) by lia.
        destruct (no_loop_no_stealth l (nextState (StepLoop env) s) Hc0) as [Hf Hg].
        * destruct env as [n r hl cr te se]. destruct s, cr, te, se; simpl in *; discriminate.
        * destruct env as [n r hl cr te se]. destruct s, cr, te, se; simpl in *; discriminate.
        * split; [assumption|]. rewrite Hg.
          destruct env as [n r hl cr te se]. destruct s, cr, te, se; simpl in *;
            try discriminate; reflexivity. }
  destruct (H sts (currentState w) Hc) as [Hf Hg]; [now rewrite Hn|].
  exists w'. rewrite Hst. repeat split; try assumption.
  none_by notStealthCall.
Qed.

(** X9. A sensor cycle calls [processSpeedSignal] exactly when it finds
    [TuningActive] and [stealthMode] exactly when it finds [StealthMode],
    never both; it leaves the system state and the CAN handler as they
    were. *)
Theorem sensorTask_gated_by_state (env : Env) (w : World) :
  (In EmuProcessSpeedSignal (emitted (sensorTask stealthModeBody env) w) <->
   currentState w = SYSTEM_TUNING_ACTIVE) /\
  (In EmuStealthMode (emitted (sensorTask stealthModeBody env) w) <->
   currentState w = SYSTEM_STEALTH_MODE) /\
  (occurrences EmuProcessSpeedSignal (emitted (sensorTask stealthModeBody env) w)
   + occurrences EmuStealthMode (emitted (sensorTask stealthModeBody env) w) <= 1)%nat /\
  stateAfter (sensorTask stealthModeBody env w) = Some (currentState w) /\
  canBusHandler (worldOf (sensorTask stealthModeBody env w)) = canBusHandler w.
Proof.
  assert (Hem : emitted (sensorTask stealthModeBody env) w =
                stepCalls (StepSensor env) (currentState w)).
  { unfold emitted. rewrite sensorTask_run.
    destruct (currentState w); simpl; apply skipn_prefix. }
  rewrite Hem, sensorTask_run.
  destruct (currentState w);
    (split; [|split; [|split; [|split]]];
    [ simpl; intuition (try discriminate; try congruence)
    | simpl; intuition (try discriminate; try congruence)
    | vm_compute; lia
    | reflexivity
    | reflexivity ]).
Qed.

End ScheduleFacts.

(** ** Start-up *)

Section StartupFacts.

Import CANBus Emulator Main Schedule Startup.

Context {codec : Codec}.
Variable stealthModeBody : Z -> SensorEmulator -> SensorEmulator.

Local Open Scope task_scope.

(** X10. [initializeModules] stops at the first failed [begin] of the
    configuration manager, the CAN handler, the sensor emulator or the safety
    monitor: a module's [begin] is called exactly when every earlier one
    succeeded.  A failed [begin] of the updater stops nothing: the success
    message is printed exactly when the first four succeeded. *)
Theorem initializeModules_stops_at_first_failure (env : BootEnv) :
  made ConfigManagerBegin (initializeModules env) = true /\
  made ConfigManagerLoadConfig (initializeModules env) = configBegin env /\
  made CanBusHandlerBegin (initializeModules env) = configBegin env /\
  made SensorEmulatorBegin (initializeModules env)
    = configBegin env && canBusBegin env /\
  made SafetyMonitorBegin (initializeModules env)
    = configBegin env && canBusBegin env && sensorBegin env /\
  made OtaUpdaterBegin (initializeModules env)
    = configBegin env && canBusBegin env && sensorBegin env && safetyBegin env /\
  made (Println "All modules initialized successfully") (initializeModules env)
    = configBegin env && canBusBegin env && sensorBegin env && safetyBegin env.
Proof.
  destruct env as [c b s f o]. destruct c, b, s, f, o; repeat split.
Qed.



(** X12. The tasks are created before [setup] assigns [Normal].  A safety
    cycle that runs in between and sees a critical error writes [Error] and
    calls [disableTuning]; the assignment then overwrites [Error], and with
    the tuning flag set the next supervisory cycle enters [TuningActive] and
    the next sensor cycle calls [processSpeedSignal]. *)
Theorem startup_discards_early_error (senv lenv tenv : Env) (w : World) :
  criticalError (health senv) = true ->
  isTuningEnabled lenv = true ->
  exists w1 w2 w',
    safetyTask senv w = Running tt w1 /\
    currentState w1 = SYSTEM_ERROR /\
    setupFinish w1 = Running tt w2 /\
    currentState w2 = SYSTEM_NORMAL /\
    (loop lenv ;; sensorTask stealthModeBody tenv) w2 = Running tt w' /\
    currentState w' = SYSTEM_TUNING_ACTIVE /\
    occurrences EmuDisableTuning (emitted (safetyTask senv) w) = 1%nat /\
    emitted (loop lenv ;; sensorTask stealthModeBody tenv) w2 =
      [SerialPrintln "Tuning activated"; Delay 100; EmuProcessSpeedSignal; TaskDelay 5].
Proof.
  intros Hce Hte.
  destruct (safetyTask_run_calls senv w) as (w1 & Hrun1 & Hst1 & Hcalls1).
  cbn [nextState] in Hst1. rewrite Hce in Hst1.
  assert (Hfin : exists w2,
             setupFinish w1 = Running tt w2 /\ currentState w2 = SYSTEM_NORMAL).
  { destruct w1 as [s1 h1 e1 c1]. eexists. split; reflexivity. }
  destruct Hfin as (w2 & Hrun2 & Hst2).
  assert (Hgo : exists w',
             (loop lenv ;; sensorTask stealthModeBody tenv) w2 = Running tt w' /\
             currentState w' = SYSTEM_TUNING_ACTIVE /\
             calls w' = calls w2 ++
               [SerialPrintln "Tuning activated"; Delay 100;
                EmuProcessSpeedSignal; TaskDelay 5]).
  { destruct w2 as [s2 h2 e2 c2]. simpl in Hst2. subst s2.
    destruct lenv as [n2 r2 hl2 cr2 te2 se2]. simpl in Hte. subst te2.
    unfold loop, sensorTask, when, Serial_println, vTaskDelay, delay, onEmulator,
      record, setCurrentState, getCurrentState, bind, ret; simpl.
    eexists. split; [reflexivity|]. split; [reflexivity|].
    simpl. now rewrite <- !app_assoc. }
  destruct Hgo as (w' & Hrun3 & Hst3 & Hcalls3).
  exists w1, w2, w'. repeat split; try assumption.
  - unfold emitted. rewrite Hrun1. cbn [worldOf]. rewrite Hcalls1, skipn_prefix.
    destruct (health senv) as [ce tw]. simpl in Hce. subst ce. now destruct tw.
  - unfold emitted. rewrite Hrun3. cbn [worldOf]. rewrite Hcalls3. apply skipn_prefix.
Qed.

End StartupFacts.

(** ** Calls of the CAN task over a schedule *)

Section CanCallFacts.

Import CANBus Emulator Main Schedule.

Context {codec : Codec}.
Variable stealthModeBody : Z -> SensorEmulator -> SensorEmulator.

Lemma can_calls_paired (sts : list Step) :
  forall s,
    s <> SYSTEM_SHUTDOWN ->
    occurrences CanProcessMessages (scheduleCalls sts s)
      = occurrences CanSendHeartbeat (scheduleCalls sts s) /\
    (occurrences CanSendHeartbeat (scheduleCalls sts s) <= count isCanStep sts)%nat.
Proof.
  induction sts as [|st sts IH]; intros s Hs.
  - split; [reflexivity | apply le_n].
  - destruct (IH (nextState st s) (nextState_not_shutdown st s Hs)) as [Heq Hle].
    cbn [scheduleCalls]. rewrite !occurrences_app, count_cons, Heq.
    assert (Hn : occurrences CanProcessMessages (stepCalls st s)
                   = occurrences CanSendHeartbeat (stepCalls st s) /\
                 (occurrences CanSendHeartbeat (stepCalls st s)
                  <= (if isCanStep st then 1 else 0))%nat).
    { destruct st as [[n r [ce tw] cr te se]|[n r [ce tw] cr te se]
                     |[n r [ce tw] cr te se]|[n r [ce tw] cr te se]];
        destruct s; try (now elim Hs);
        destruct ce, tw, cr, te, se; split; vm_compute; try reflexivity; lia. }
    destruct Hn as [-> Hn1]. split; [reflexivity | lia].
Qed.

(** X13. Over a schedule started outside [Shutdown], [processMessages] and
    [sendHeartbeat] are called the same number of times, at most once per
    cycle of the CAN task: no other task calls either, and the CAN task never
    calls one without the other. *)
Theorem can_calls_come_in_pairs (sts : list Step) (w : World) :
  currentState w <> SYSTEM_SHUTDOWN ->
  occurrences CanProcessMessages (emitted (runSteps stealthModeBody sts) w)
    = occurrences CanSendHeartbeat (emitted (runSteps stealthModeBody sts) w) /\
  (occurrences CanSendHeartbeat (emitted (runSteps stealthModeBody sts) w)
   <= count isCanStep sts)%nat.
Proof.
  intros Hs. rewrite (emitted_schedule stealthModeBody sts w Hs).
  now apply can_calls_paired.
Qed.

End CanCallFacts.

(** ** Concrete schedules and start-ups *)

Section ScheduleRuns.

Import CANBus Emulator Main Schedule Startup.

(** When the CAN handler fails to start, the sensor emulator, the safety
    monitor and the updater are not started. *)
Example initializeModules_can_fails :
  initializeModules canFails =
    [Println "Initializing modules..."; ConfigManagerBegin; ConfigManagerLoadConfig;
     CanBusHandlerBegin; Println "ERROR: Failed to initialize CAN Bus"].
Proof. reflexivity. Qed.

Example busySchedule_runs :
  stateAfter (runSteps idleStealth busySchedule (sampleWorld SYSTEM_NORMAL))
    = Some SYSTEM_NORMAL.
Proof. reflexivity. Qed.

Lemma operational_states_closed_witness :
  operational (currentState (sampleWorld SYSTEM_NORMAL)) = true /\
  exists w',
    runSteps idleStealth busySchedule (sampleWorld SYSTEM_NORMAL) = Running tt w' /\
    operational (currentState w') = true.
Proof.
  split; [reflexivity|].
  destruct (operational_states_closed idleStealth busySchedule
              (sampleWorld SYSTEM_NORMAL) eq_refl) as (w' & Hrun & Hop & _).
  exists w'. split; assumption.
Defined.

Lemma error_only_from_safety_witness :
  forallb calm calmSchedule = true /\
  exists w',
    runSteps idleStealth calmSchedule (sampleWorld SYSTEM_NORMAL) = Running tt w' /\
    currentState w' <> SYSTEM_ERROR.
Proof.
  split; [reflexivity|].
  assert (H1 : currentState (sampleWorld SYSTEM_NORMAL) <> SYSTEM_ERROR) by discriminate.
  assert (H2 : currentState (sampleWorld SYSTEM_NORMAL) <> SYSTEM_SHUTDOWN) by discriminate.
  destruct (error_only_from_safety idleStealth calmSchedule
              (sampleWorld SYSTEM_NORMAL) H1 H2 eq_refl) as (w' & Hrun & Hne & _).
  exists w'. split; assumption.
Defined.


Lemma tuning_off_no_processing_witness :
  forallb tuningOff untunedSchedule = true /\
  occurrences EmuStealthMode
    (emitted (runSteps idleStealth untunedSchedule) (sampleWorld SYSTEM_NORMAL)) = O.
Proof.
  split; [reflexivity|].
  destruct (tuning_off_no_processing idleStealth untunedSchedule
              (sampleWorld SYSTEM_NORMAL) eq_refl eq_refl) as (w' & _ & _ & _ & H).
  exact H.
Defined.

Lemma stealth_persists_witness :
  forallb stealthOn stealthyRun = true /\
  forallb calm stealthyRun = true /\
  occurrences EmuStealthMode
    (emitted (runSteps idleStealth stealthyRun) (sampleWorld SYSTEM_STEALTH_MODE))
    = 2%nat.
Proof.
  split; [reflexivity|]. split; [reflexivity|].
  destruct (stealth_persists idleStealth stealthyRun
              (sampleWorld SYSTEM_STEALTH_MODE) eq_refl eq_refl eq_refl)
    as (w' & _ & _ & H & _).
  exact H.
Defined.

Lemma performance_only_reduced_witness :
  currentState (sampleWorld SYSTEM_NORMAL) <> SYSTEM_SHUTDOWN /\
  occurrences (EmuSetPerformanceMode PERFORMANCE_REDUCED)
    (emitted (runSteps idleStealth busySchedule) (sampleWorld SYSTEM_NORMAL)) = 2%nat.
Proof.
  assert (H : currentState (sampleWorld SYSTEM_NORMAL) <> SYSTEM_SHUTDOWN) by discriminate.
  split; [exact H|].
  exact (proj1 (performance_only_reduced idleStealth busySchedule
                  (sampleWorld SYSTEM_NORMAL) H)).
Defined.

Lemma critical_error_cancels_shutdown_witness :
  criticalError (health criticalEnv) = true /\
  occurrences CanSendShutdownMessage
    (emitted (runSteps idleStealth (StepSafety criticalEnv :: [StepLoop quietEnv]))
       (sampleWorld SYSTEM_SHUTDOWN)) = O.
Proof.
  split; [reflexivity|].
  destruct (critical_error_cancels_shutdown idleStealth criticalEnv [StepLoop quietEnv]
              (sampleWorld SYSTEM_SHUTDOWN) eq_refl eq_refl) as (w' & _ & _ & H & _).
  exact H.
Defined.

Lemma stealth_needs_two_cycles_witness :
  (count isLoopStep oneLoopSchedule <= 1)%nat /\
  exists w',
    runSteps idleStealth oneLoopSchedule (sampleWorld SYSTEM_NORMAL) = Running tt w' /\
    currentState w' <> SYSTEM_STEALTH_MODE.
Proof.
  assert (H : (count isLoopStep oneLoopSchedule <= 1)%nat) by (vm_compute; lia).
  split; [exact H|].
  destruct (stealth_needs_two_cycles idleStealth oneLoopSchedule
              (sampleWorld SYSTEM_NORMAL) eq_refl H) as (w' & Hrun & Hne & _).
  exists w'. split; assumption.
Defined.

Lemma startup_discards_early_error_witness :
  criticalError (health criticalEnv) = true /\
  isTuningEnabled (tunedEnv 10 []) = true /\
  exists w1 w2,
    safetyTask criticalEnv (sampleWorld SYSTEM_INIT) = Running tt w1 /\
    currentState w1 = SYSTEM_ERROR /\
    setupFinish w1 = Running tt w2 /\
    currentState w2 = SYSTEM_NORMAL.
Proof.
  split; [reflexivity|]. split; [reflexivity|].
  destruct (startup_discards_early_error idleStealth criticalEnv (tunedEnv 10 [])
              (tunedEnv 15 []) (sampleWorld SYSTEM_INIT) eq_refl eq_refl)
    as (w1 & w2 & w' & H1 & H2 & H3 & H4 & _).
  exists w1, w2. repeat split; assumption.
Defined.

Lemma can_calls_come_in_pairs_witness :
  currentState (sampleWorld SYSTEM_NORMAL) <> SYSTEM_SHUTDOWN /\
  occurrences CanProcessMessages
    (emitted (runSteps idleStealth busySchedule) (sampleWorld SYSTEM_NORMAL))
  = occurrences CanSendHeartbeat
      (emitted (runSteps idleStealth busySchedule) (sampleWorld SYSTEM_NORMAL)).
Proof.
  assert (H : currentState (sampleWorld SYSTEM_NORMAL) <> SYSTEM_SHUTDOWN) by discriminate.
  split; [exact H|].
  exact (proj1 (can_calls_come_in_pairs idleStealth busySchedule
                  (sampleWorld SYSTEM_NORMAL) H)).
Defined.

End ScheduleRuns.
